(** * thonny/custom_notebook.py: the page bookkeeping of [CustomNotebook]

    A shallow embedding of the notebook controller of
    [thonny/custom_notebook.py] (classes [CustomNotebook],
    [CustomNotebookPage], and the part of [CustomNotebookTab] the
    controller drives), followed by the properties of its page sequence
    and current page.

    Modelling decisions.
    - Python objects compared by identity ([is], or [==] on classes that
      define no [__eq__]: Tk widgets, tabs, pages) carry the address they
      were allocated at, a [nat]; the comparison is equality of addresses.
    - [self.pages] is a [list]; subscripts are Python [int]s, modelled by
      [Z] with the negative-index rule of the language written out.
    - Every method is a state transformer that also says whether the call
      returned or raised.  A raise keeps the state reached so far: nothing
      is rolled back, as in Python.
    - Calls into Tk (geometry management, stacking order, option
      configuration, virtual events) are recorded, in order, in a log that is
      part of the state; Tk itself is not interpreted. *)

From Stdlib Require Import String ZArith Bool Arith Lia List.
Import ListNotations.

Set Implicit Arguments.

(** ** Python: exceptions, results, list operations *)

Module Py.

Inductive exception : Type :=
| IndexError
| ValueError
| RuntimeError
| OverflowError.

Inductive result (A : Type) : Type :=
| Return (a : A)
| Raise (e : exception).
Arguments Return {A} a.
Arguments Raise {A} e.

(** [l[i]] for an [int] subscript: [0 <= i < len] counts from the front,
    [-len <= i < 0] from the back, anything else is an [IndexError]
    (here: [None]). *)
Definition normalize_index (len : nat) (i : Z) : option nat :=
  if ((0 <=? i) && (i <? Z.of_nat len))%Z then Some (Z.to_nat i)
  else if ((- Z.of_nat len <=? i) && (i <? 0))%Z
       then Some (Z.to_nat (Z.of_nat len + i))
       else None.

Definition getitem {A} (l : list A) (i : Z) : option A :=
  match normalize_index (length l) i with
  | Some n => nth_error l n
  | None => None
  end.

(** The range of the C type [Py_ssize_t] ([sys.maxsize] and
    [-sys.maxsize - 1]) of a 64-bit interpreter. *)
Definition ssize_t_max : Z := 9223372036854775807.

Definition ssize_t_min : Z := - ssize_t_max - 1.

Definition fits_ssize_t (z : Z) : bool :=
  ((ssize_t_min <=? z) && (z <=? ssize_t_max))%Z.

(** [l.insert(pos, x)].  The argument is first converted to a
    [Py_ssize_t]: an [int] outside that range is an [OverflowError] (here:
    [None]) and the list is left alone.  Otherwise a negative [pos] is taken
    from the end, and the result is clamped into [0 .. len]. *)
Definition insert_point (len : nat) (pos : Z) : option nat :=
  if fits_ssize_t pos
  then Some (if (pos <? 0)%Z
             then Z.to_nat (Z.max 0 (pos + Z.of_nat len))
             else Z.to_nat (Z.min pos (Z.of_nat len)))
  else None.

Definition list_insert {A} (l : list A) (pos : Z) (x : A) : option (list A) :=
  match insert_point (length l) pos with
  | Some k => Some (firstn k l ++ x :: skipn k l)
  | None => None
  end.

(** [del l[i]] for an in-range, non-negative [i]. *)
Definition del {A} (l : list A) (i : nat) : list A :=
  firstn i l ++ skipn (S i) l.

(** [enumerate(l)]. *)
Definition enumerate {A} (l : list A) : list (nat * A) :=
  combine (seq 0 (length l)) l.

(** Index of the first element a [for i, x in enumerate(l)] loop stops at
    ([break] / [return]) under the test [f]; [None] when the loop runs to
    its end. *)
Fixpoint first_index {A} (f : A -> bool) (l : list A) : option nat :=
  match l with
  | [] => None
  | x :: l' => if f x then Some 0
               else match first_index f l' with
                    | Some i => Some (S i)
                    | None => None
                    end
  end.

End Py.

(** ** Tk: widgets and the calls the notebook makes on them *)

(** A content widget: its identity and its Tk name ([winfo_name()]). *)
Record Widget : Type := mkWidget { wid : nat; winfo_name : string }.

(** [a is b] on widgets. *)
Definition widget_is (a b : Widget) : bool := wid a =? wid b.

Module Tk.

Inductive call : Type :=
| NewTab (t : nat) (title : string) (closable : bool)
    (* CustomNotebookTab(notebook, title=..., closable=...) *)
| TabGrid (t : nat) (column : nat)
    (* tab.grid(row=0, column=i, ...) *)
| TabGridForget (t : nat)
| TabSetTitle (t : nat) (text : string)
    (* tab.set_title(text), i.e. tab.label.configure(text=text) *)
| TabUpdateState (t : nat) (active : bool)
    (* tab.update_state(active) *)
| ContentGridPropagate (w : Widget) (flag : bool)
| ContentGrid (w : Widget)
    (* content.grid(row=1, column=0, ...) *)
| ContentRaise (w : Widget)
    (* content.tkraise() *)
| ContentGridForget (w : Widget)
| ContentFocusSet (w : Widget)
| FrameFocusSet
    (* super().focus_set() *)
| EventGenerate (name : string).

Definition is_event (c : call) : bool :=
  match c with EventGenerate _ => true | _ => false end.

Definition is_update_state (c : call) : bool :=
  match c with TabUpdateState _ _ => true | _ => false end.

(** Number of virtual events generated in a stretch of the log. *)
Definition notifications (log : list call) : nat :=
  length (filter is_event log).

(** The content widgets taken out of the layout, in call order. *)
Fixpoint forgotten (log : list call) : list Widget :=
  match log with
  | [] => []
  | ContentGridForget w :: log' => w :: forgotten log'
  | _ :: log' => forgotten log'
  end.

(** The text a tab's label shows after the logged calls: the title it was
    created with, or the text of the last [set_title]. *)
Fixpoint label_text (log : list call) (t : nat) (shown : option string)
  : option string :=
  match log with
  | [] => shown
  | NewTab t' title _ :: log' =>
      label_text log' t (if t' =? t then Some title else shown)
  | TabSetTitle t' text :: log' =>
      label_text log' t (if t' =? t then Some text else shown)
  | _ :: log' => label_text log' t shown
  end.

(** The argument of the last [update_state] call on a tab, if any. *)
Fixpoint tab_state (log : list call) (t : nat) (st : option bool)
  : option bool :=
  match log with
  | [] => st
  | TabUpdateState t' b :: log' =>
      tab_state log' t (if t' =? t then Some b else st)
  | _ :: log' => tab_state log' t st
  end.

End Tk.

(** ** class CustomNotebookPage *)

Module CustomNotebookPage.

(** [self] is the address of the page object, [tab] the address of its
    [CustomNotebookTab], [content] the content widget. *)
Record t : Type := mk { self : nat; tab : nat; content : Widget }.

(** [p == q] on pages: the class defines no [__eq__], so identity. *)
Definition eq (p q : t) : bool := self p =? self q.

End CustomNotebookPage.

Notation Page := CustomNotebookPage.t (only parsing).

(** [tab_id: Union[str, tk.Widget, None]]. *)
Inductive tab_id : Type :=
| TidNone
| TidStr (s : string)
| TidWidget (w : Widget).

(** [pos: Union[int, Literal["end"]]]. *)
Inductive position : Type :=
| PosEnd
| PosInt (pos : Z).

(** ** class CustomNotebook *)

Module CustomNotebook.

Import Py.

Record t : Type := mk {
  closable : bool;
  pages : list Page;
  current_page : option Page;
  next_object : nat;          (* address of the next object created *)
  tk_log : list Tk.call       (* calls made into Tk so far, oldest first *)
}.

(** [CustomNotebook(master, closable)]. *)
Definition __init__ (closable : bool) : t :=
  {| closable := closable; pages := []; current_page := None;
     next_object := 0; tk_log := [] |}.

(** *** The monad of method bodies *)

Definition M (A : Type) : Type := t -> result A * t.

Definition ret {A} (a : A) : M A := fun nb => (Return a, nb).

Definition raise {A} (e : exception) : M A := fun nb => (Raise e, nb).

Definition bind {A B} (m : M A) (k : A -> M B) : M B :=
  fun nb => match m nb with
            | (Return a, nb') => k a nb'
            | (Raise e, nb') => (Raise e, nb')
            end.

Notation "x <- m ;; k" := (bind m (fun x => k))
  (at level 61, m at next level, right associativity).
Notation "m ;; k" := (bind m (fun _ => k))
  (at level 61, right associativity).

Definition get_pages : M (list Page) := fun nb => (Return (pages nb), nb).

Definition get_current_page : M (option Page) :=
  fun nb => (Return (current_page nb), nb).

Definition set_pages (l : list Page) : M unit :=
  fun nb => (Return tt,
             {| closable := closable nb; pages := l;
                current_page := current_page nb;
                next_object := next_object nb; tk_log := tk_log nb |}).

Definition set_current_page (p : option Page) : M unit :=
  fun nb => (Return tt,
             {| closable := closable nb; pages := pages nb;
                current_page := p;
                next_object := next_object nb; tk_log := tk_log nb |}).

(** One call into Tk. *)
Definition tk (c : Tk.call) : M unit :=
  fun nb => (Return tt,
             {| closable := closable nb; pages := pages nb;
                current_page := current_page nb;
                next_object := next_object nb;
                tk_log := tk_log nb ++ [c] |}).

(** Allocation of a fresh object. *)
Definition new_object : M nat :=
  fun nb => (Return (next_object nb),
             {| closable := closable nb; pages := pages nb;
                current_page := current_page nb;
                next_object := S (next_object nb); tk_log := tk_log nb |}).

(** [l[i]], raising [IndexError]. *)
Definition subscript {A} (l : list A) (i : Z) : M A :=
  match getitem l i with
  | Some x => ret x
  | None => raise IndexError
  end.

(** [for x in l: body(x)] over a list that the body does not change. *)
Fixpoint for_each {A} (l : list A) (body : A -> M unit) : M unit :=
  match l with
  | [] => ret tt
  | x :: l' => body x ;; for_each l' body
  end.

(** *** Methods *)

Definition _rearrange_tabs : M unit :=
  ps <- get_pages ;;
  for_each (enumerate ps)
    (fun ip => tk (Tk.TabGrid (CustomNotebookPage.tab (snd ip)) (fst ip))).

(** [new_page == self.current_page], the right side being [Optional]. *)
Definition is_current (new_page : Page) (cur : option Page) : bool :=
  match cur with
  | Some p => CustomNotebookPage.eq new_page p
  | None => false
  end.

Definition select_by_index (index : Z) : M unit :=
  ps <- get_pages ;;
  new_page <- subscript ps index ;;
  cur <- get_current_page ;;
  if is_current new_page cur then ret tt
  else
    tk (Tk.ContentGridPropagate (CustomNotebookPage.content new_page) false) ;;
    tk (Tk.ContentGrid (CustomNotebookPage.content new_page)) ;;
    tk (Tk.ContentRaise (CustomNotebookPage.content new_page)) ;;
    tk (Tk.TabUpdateState (CustomNotebookPage.tab new_page) true) ;;
    match cur with
    | Some p => tk (Tk.TabUpdateState (CustomNotebookPage.tab p) false)
    | None => ret tt
    end ;;
    set_current_page (Some new_page) ;;
    tk (Tk.EventGenerate "<<NotebookTabChanged>>").

Definition select_tab (tab : nat) : M unit :=
  ps <- get_pages ;;
  match first_index (fun page => CustomNotebookPage.tab page =? tab) ps with
  | Some i => select_by_index (Z.of_nat i)
  | None => raise ValueError
  end.

(** [tab_id == "end"]. *)
Definition is_end (id : tab_id) : bool :=
  match id with
  | TidStr s => String.eqb s "end"
  | _ => false
  end.

(** [page.content == tab_id or page.content.winfo_name() == tab_id]. *)
Definition matches (id : tab_id) (page : Page) : bool :=
  match id with
  | TidWidget w => widget_is (CustomNotebookPage.content page) w
  | TidStr s => String.eqb (winfo_name (CustomNotebookPage.content page)) s
  | TidNone => false
  end.

Definition index (id : tab_id) : M Z :=
  ps <- get_pages ;;
  if is_end id then ret (Z.of_nat (length ps))
  else match first_index (matches id) ps with
       | Some i => ret (Z.of_nat i)
       | None => raise RuntimeError
       end.

Definition select (id : tab_id) : M (option string) :=
  match id with
  | TidNone =>
      cur <- get_current_page ;;
      match cur with
      | Some p => ret (Some (winfo_name (CustomNotebookPage.content p)))
      | None => ret None
      end
  | _ =>
      i <- index id ;;
      select_by_index i ;;
      ret None
  end.

Definition tab (id : tab_id) (text : string) : M unit :=
  i <- index id ;;
  ps <- get_pages ;;
  page <- subscript ps i ;;
  tk (Tk.TabSetTitle (CustomNotebookPage.tab page) text).

Definition tabs : M (list string) :=
  ps <- get_pages ;;
  ret (map (fun page => winfo_name (CustomNotebookPage.content page)) ps).

Definition winfo_children : M (list Widget) :=
  ps <- get_pages ;;
  ret (map CustomNotebookPage.content ps).

Definition forget (child : Widget) : M unit :=
  ps <- get_pages ;;
  match first_index
          (fun page => widget_is child (CustomNotebookPage.content page)) ps
  with
  | None => raise ValueError
  | Some i =>
      page <- subscript ps (Z.of_nat i) ;;
      tk (Tk.ContentGridForget (CustomNotebookPage.content page)) ;;
      tk (Tk.TabGridForget (CustomNotebookPage.tab page)) ;;
      set_pages (del ps i) ;;
      ps' <- get_pages ;;
      (if length ps' =? 0 then set_current_page None
       else if i <? length ps' then
              p <- subscript ps' (Z.of_nat i) ;; set_current_page (Some p)
            else
              p <- subscript ps' (-1) ;; set_current_page (Some p)) ;;
      _rearrange_tabs
  end.

Definition get_child_by_index (index : Z) : M Widget :=
  ps <- get_pages ;;
  page <- subscript ps index ;;
  ret (CustomNotebookPage.content page).

Definition get_current_child : M (option Widget) :=
  cur <- get_current_page ;;
  match cur with
  | Some p => ret (Some (CustomNotebookPage.content p))
  | None => ret None
  end.

Definition focus_set : M unit :=
  cur <- get_current_page ;;
  match cur with
  | Some p => tk (Tk.ContentFocusSet (CustomNotebookPage.content p))
  | None => tk Tk.FrameFocusSet
  end.

Definition close_tab (tab : nat) : M unit :=
  ps <- get_pages ;;
  match find (fun page => CustomNotebookPage.tab page =? tab) ps with
  | Some page => forget (CustomNotebookPage.content page)
  | None => raise ValueError
  end.

(** [page.tab == except_tab], the right side being [Optional]. *)
Definition is_except (tab : nat) (except_tab : option nat) : bool :=
  match except_tab with
  | Some e => tab =? e
  | None => false
  end.

(** The loop of [close_tabs].  [reversed(self.pages)] is an iterator over
    the live list: it holds a position, starting at [len - 1]; each step
    yields [self.pages[position]] as the list is at that moment and moves
    one down; it is exhausted once the position is below zero or no longer
    inside the list.  [n] is the position plus one. *)
Fixpoint close_tabs_from (n : nat) (except_tab : option nat) : M unit :=
  match n with
  | 0 => ret tt
  | S position =>
      ps <- get_pages ;;
      match nth_error ps position with
      | None => ret tt
      | Some page =>
          (if is_except (CustomNotebookPage.tab page) except_tab then ret tt
           else close_tab (CustomNotebookPage.tab page)) ;;
          close_tabs_from position except_tab
      end
  end.

Definition close_tabs (except_tab : option nat) : M unit :=
  ps <- get_pages ;;
  close_tabs_from (length ps) except_tab.

Definition insert (pos : position) (child : Widget) (text : string)
  : M unit :=
  tab <- new_object ;;
  c <- (fun nb => (Return (closable nb), nb)) ;;
  tk (Tk.NewTab tab text c) ;;
  self <- new_object ;;
  let page := CustomNotebookPage.mk self tab child in
  ps <- get_pages ;;
  match pos with
  | PosEnd => set_pages (ps ++ [page])
  | PosInt p =>
      match list_insert ps p page with
      | Some ps' => set_pages ps'
      | None => raise OverflowError
      end
  end ;;
  _rearrange_tabs ;;
  select_tab (CustomNotebookPage.tab page).

Definition add (child : Widget) (text : string) : M unit :=
  insert PosEnd child text.

End CustomNotebook.

Notation Notebook := CustomNotebook.t (only parsing).

(** ** Running methods, sequences of public operations, state predicates *)

(** The state a call leaves behind, whether it returned or raised. *)
Definition run {A} (m : CustomNotebook.M A) (nb : Notebook) : Notebook :=
  snd (m nb).

(** How a call ended. *)
Definition outcome {A} (m : CustomNotebook.M A) (nb : Notebook)
  : Py.result A :=
  fst (m nb).

(** The Tk calls made between an earlier state and a later one. *)
Definition calls_since (before after : Notebook) : list Tk.call :=
  skipn (length (CustomNotebook.tk_log before)) (CustomNotebook.tk_log after).

(** The public operations that change a notebook. *)
Inductive operation : Type :=
| Add (child : Widget) (text : string)
| Insert (pos : position) (child : Widget) (text : string)
| Forget (child : Widget)
| Select (id : tab_id)
| SelectByIndex (index : Z)
| SelectTab (tab : nat)
| CloseTab (tab : nat)
| CloseTabs (except_tab : option nat).

Definition perform (o : operation) (nb : Notebook) : Notebook :=
  match o with
  | Add child text => run (CustomNotebook.add child text) nb
  | Insert pos child text => run (CustomNotebook.insert pos child text) nb
  | Forget child => run (CustomNotebook.forget child) nb
  | Select id => run (CustomNotebook.select id) nb
  | SelectByIndex i => run (CustomNotebook.select_by_index i) nb
  | SelectTab tab => run (CustomNotebook.select_tab tab) nb
  | CloseTab tab => run (CustomNotebook.close_tab tab) nb
  | CloseTabs except_tab => run (CustomNotebook.close_tabs except_tab) nb
  end.

(** The states a notebook goes through, one per operation, in order. *)
Fixpoint states_after (ops : list operation) (nb : Notebook)
  : list Notebook :=
  match ops with
  | [] => []
  | o :: ops' => perform o nb :: states_after ops' (perform o nb)
  end.

(** The current-page invariant: no current page exactly when there are no
    pages, and a current page is one of the pages. *)
Definition current_page_invariant (nb : Notebook) : Prop :=
  (CustomNotebook.current_page nb = None <-> CustomNotebook.pages nb = [])
  /\ (forall p, CustomNotebook.current_page nb = Some p ->
                In p (CustomNotebook.pages nb)).

(** Allocation discipline: every object the notebook refers to was
    allocated before [next_object], so the next tab and page are new. *)
Definition allocated (nb : Notebook) : Prop :=
  forall p,
    In p (CustomNotebook.pages nb) \/ CustomNotebook.current_page nb = Some p ->
    CustomNotebookPage.self p < CustomNotebook.next_object nb
    /\ CustomNotebookPage.tab p < CustomNotebook.next_object nb.

(** The errors the lookups raise when nothing matches: [RuntimeError] from
    [index], [ValueError] from [forget], [close_tab] and [select_tab]. *)
Definition not_found (e : Py.exception) : Prop :=
  e = Py.ValueError \/ e = Py.RuntimeError.

(** [id] names no page of the notebook, by identity or by Tk name. *)
Definition matches_no_page (id : tab_id) (nb : Notebook) : Prop :=
  forall p, In p (CustomNotebook.pages nb) -> CustomNotebook.matches id p = false.

(** *** What the methods amount to

    Closed forms of the log stretches and of the state updates the methods
    perform, used to state their equations below. *)

(** The notebook with some more calls logged. *)
Definition logged (cs : list Tk.call) (nb : Notebook) : Notebook :=
  CustomNotebook.mk (CustomNotebook.closable nb) (CustomNotebook.pages nb)
    (CustomNotebook.current_page nb) (CustomNotebook.next_object nb)
    (CustomNotebook.tk_log nb ++ cs).

(** The calls of [_rearrange_tabs] on a page list. *)
Definition grid_calls (ps : list Page) : list Tk.call :=
  map (fun ip => Tk.TabGrid (CustomNotebookPage.tab (snd ip)) (fst ip))
      (Py.enumerate ps).

(** The calls of a [select_by_index] that switches from [cur] to [p]. *)
Definition switch_calls (p : Page) (cur : option Page) : list Tk.call :=
  [Tk.ContentGridPropagate (CustomNotebookPage.content p) false;
   Tk.ContentGrid (CustomNotebookPage.content p);
   Tk.ContentRaise (CustomNotebookPage.content p);
   Tk.TabUpdateState (CustomNotebookPage.tab p) true]
  ++ match cur with
     | Some q => [Tk.TabUpdateState (CustomNotebookPage.tab q) false]
     | None => []
     end
  ++ [Tk.EventGenerate "<<NotebookTabChanged>>"].

(** Where [insert] puts the new page in a list of [len] pages; [None] when
    [list.insert] raises. *)
Definition insertion_index (pos : position) (len : nat) : option nat :=
  match pos with
  | PosEnd => Some len
  | PosInt p => Py.insert_point len p
  end.

(** The positions [list.insert] accepts: ["end"] never reaches it, an [int]
    must fit a [Py_ssize_t]. *)
Definition position_fits (pos : position) : bool :=
  match pos with
  | PosEnd => true
  | PosInt p => Py.fits_ssize_t p
  end.

(** The page [forget] makes current, given the pages left and the index
    the removed page had. *)
Definition page_after_removal (ps' : list Page) (i : nat) : option Page :=
  match ps' with
  | [] => None
  | _ :: _ => if i <? length ps' then nth_error ps' i
              else Py.getitem ps' (-1)
  end.

(** *** Sample notebooks *)

Module Sample.

Definition A : Widget := mkWidget 100 "a".
Definition B : Widget := mkWidget 101 "b".
Definition C : Widget := mkWidget 102 "c".
Definition D : Widget := mkWidget 103 "d".
Definition X : Widget := mkWidget 104 "x".

(** [nb = CustomNotebook(root)]. *)
Definition empty : Notebook := CustomNotebook.__init__ true.

(** ... then [nb.add(A, "A")]: pages [A], current [A]. *)
Definition notebook_A : Notebook := perform (Add A "A") empty.

(** ... then [nb.add(B, "B")]: pages [A, B], current [B]. *)
Definition notebook_AB : Notebook := perform (Add B "B") notebook_A.

(** ... then [nb.add(C, "C")]: pages [A, B, C], current [C]. *)
Definition notebook_ABC : Notebook := perform (Add C "C") notebook_AB.

(** ... then [nb.select_by_index(0)]: pages [A, B, C], current [A]. *)
Definition notebook_ABC_on_A : Notebook :=
  perform (SelectByIndex 0) notebook_ABC.

(** ... or [nb.add(D, "D")] instead: pages [A, B, C, D], current [D]. *)
Definition notebook_ABCD : Notebook := perform (Add D "D") notebook_ABC.

(** The page objects these calls create: the tab of the n-th [add] is
    object [2n], its page object [2n + 1]. *)
Definition page_A : Page := CustomNotebookPage.mk 1 0 A.
Definition page_B : Page := CustomNotebookPage.mk 3 2 B.
Definition page_C : Page := CustomNotebookPage.mk 5 4 C.
Definition page_D : Page := CustomNotebookPage.mk 7 6 D.

End Sample.

(** ** class CustomNotebookTab: the callbacks that drive the notebook

    A tab is the object at address [self]; its [self.notebook] is the
    notebook the state monad threads.  The [event] argument of the Tk
    callbacks is not looked at by the code. *)

Module CustomNotebookTab.

Definition set_title (self : nat) (text : string) : CustomNotebook.M unit :=
  CustomNotebook.tk (Tk.TabSetTitle self text).

Definition update_state (self : nat) (active : bool) : CustomNotebook.M unit :=
  CustomNotebook.tk (Tk.TabUpdateState self active).

Definition _close_tab (self : nat) : CustomNotebook.M unit :=
  CustomNotebook.close_tab self.

Definition _middle_btn_press (self : nat) (event : unit)
  : CustomNotebook.M unit :=
  _close_tab self.

Definition _close_all_tabs (self : nat) : CustomNotebook.M unit :=
  CustomNotebook.close_tabs None.

Definition _close_other_tabs (self : nat) : CustomNotebook.M unit :=
  CustomNotebook.close_tabs (Some self).

Definition on_click (self : nat) (event : unit) : CustomNotebook.M unit :=
  CustomNotebook.select_tab self.

Definition on_button_click (self : nat) (event : unit)
  : CustomNotebook.M unit :=
  CustomNotebook.close_tab self.

End CustomNotebookTab.

(** *** More state predicates *)

(** No two pages of the notebook share a tab or are the same page object. *)
Definition distinct_pages (nb : Notebook) : Prop :=
  NoDup (map CustomNotebookPage.tab (CustomNotebook.pages nb))
  /\ NoDup (map CustomNotebookPage.self (CustomNotebook.pages nb)).

(** No content widget is held by two pages. *)
Definition distinct_contents (nb : Notebook) : Prop :=
  NoDup (map (fun p => wid (CustomNotebookPage.content p))
             (CustomNotebook.pages nb)).


(** What holds of every notebook built by the public operations. *)
Definition well_formed (nb : Notebook) : Prop :=
  distinct_pages nb /\ allocated nb /\ current_page_invariant nb.

(** The tabs whose last [update_state] was [update_state(True)] are exactly
    the tab of the current page. *)
Definition active_tab_is_current (nb : Notebook) : Prop :=
  forall t,
    Tk.tab_state (CustomNotebook.tk_log nb) t None = Some true
    <-> exists p, CustomNotebook.current_page nb = Some p
                  /\ CustomNotebookPage.tab p = t.

(** The operations that take pages out. *)
Definition removes_pages (o : operation) : bool :=
  match o with
  | Forget _ | CloseTab _ | CloseTabs _ => true
  | _ => false
  end.

(** The last page of a list, if any. *)
Definition last_page (ps : list Page) : option Page := hd_error (rev ps).

(** A call that can fail only with one of the listed exceptions, and then
    leaves the notebook exactly as it was. *)
Definition raises_only {A} (allowed : list Py.exception)
    (m : CustomNotebook.M A) (nb : Notebook) : Prop :=
  forall e, outcome m nb = Py.Raise e -> In e allowed /\ run m nb = nb.

(** A call that returns. *)
Definition never_raises {A} (m : CustomNotebook.M A) (nb : Notebook) : Prop :=
  exists a, outcome m nb = Py.Return a.

(** * Properties *)

(** ** Python list operations *)

Section PyLists.

Context {A : Type}.
Implicit Types (l : list A) (i : Z) (n : nat).

Lemma normalize_index_lt len i n :
  Py.normalize_index len i = Some n -> n < len.
Proof.
  unfold Py.normalize_index.
  destruct ((0 <=? i) && (i <? Z.of_nat len))%Z eqn:E1.
  - apply andb_prop in E1 as [H1 H2].
    intros [= <-]. lia.
  - destruct ((- Z.of_nat len <=? i) && (i <? 0))%Z eqn:E2; [|discriminate].
    apply andb_prop in E2 as [H1 H2].
    intros [= <-]. lia.
Qed.

Lemma normalize_index_None len i :
  Py.normalize_index len i = None <->
  (i < - Z.of_nat len \/ Z.of_nat len <= i)%Z.
Proof.
  unfold Py.normalize_index.
  destruct (0 <=? i)%Z eqn:E0, (i <? Z.of_nat len)%Z eqn:E1,
           (- Z.of_nat len <=? i)%Z eqn:E2, (i <? 0)%Z eqn:E3;
    cbn [andb];
    rewrite ?Z.leb_le, ?Z.leb_gt, ?Z.ltb_lt, ?Z.ltb_ge in *;
    split; intros H; try discriminate H; try reflexivity; lia.
Qed.

Lemma getitem_None l i :
  Py.getitem l i = None <->
  (i < - Z.of_nat (length l) \/ Z.of_nat (length l) <= i)%Z.
Proof.
  unfold Py.getitem.
  destruct (Py.normalize_index (length l) i) as [n|] eqn:E.
  - pose proof (normalize_index_lt _ _ E) as Hn.
    split.
    + intros H. apply nth_error_None in H. lia.
    + intros H. apply normalize_index_None in H. congruence.
  - split; [intros _; now apply normalize_index_None | reflexivity].
Qed.

Lemma getitem_In l i x : Py.getitem l i = Some x -> In x l.
Proof.
  unfold Py.getitem.
  destruct (Py.normalize_index (length l) i); [|discriminate].
  apply nth_error_In.
Qed.

Lemma getitem_of_nat l n : Py.getitem l (Z.of_nat n) = nth_error l n.
Proof.
  unfold Py.getitem, Py.normalize_index.
  destruct (Z.of_nat n <? Z.of_nat (length l))%Z eqn:E.
  - replace (0 <=? Z.of_nat n)%Z with true by (symmetry; apply Z.leb_le; lia).
    cbn [andb]. now rewrite Nat2Z.id.
  - replace (0 <=? Z.of_nat n)%Z with true by (symmetry; apply Z.leb_le; lia).
    replace (Z.of_nat n <? 0)%Z with false by (symmetry; apply Z.ltb_ge; lia).
    cbn [andb]. rewrite andb_false_r.
    symmetry. apply nth_error_None. apply Z.ltb_ge in E. lia.
Qed.

Lemma getitem_nonempty_last l :
  l <> [] -> exists x, Py.getitem l (-1) = Some x.
Proof.
  intros Hl.
  destruct (Py.getitem l (-1)) as [x|] eqn:E; [now exists x|].
  apply getitem_None in E.
  destruct l; [congruence | cbn [length] in E; lia].
Qed.

Lemma first_index_Some (f : A -> bool) l n :
  Py.first_index f l = Some n ->
  exists x, nth_error l n = Some x /\ f x = true
            /\ Py.first_index f (firstn n l) = None.
Proof.
  revert n. induction l as [|a l IH]; intros n; cbn [Py.first_index].
  - discriminate.
  - destruct (f a) eqn:Fa.
    + intros [= <-]. exists a. now repeat split.
    + destruct (Py.first_index f l) as [k|] eqn:Ek; [|discriminate].
      intros [= <-].
      destruct (IH k eq_refl) as (x & Hx & Fx & Hk).
      exists x. cbn [nth_error firstn Py.first_index].
      rewrite Fa, Hk. now repeat split.
Qed.

Lemma first_index_None (f : A -> bool) l :
  Py.first_index f l = None <-> (forall x, In x l -> f x = false).
Proof.
  induction l as [|a l IH]; cbn [Py.first_index].
  - split; [intros _ x [] | reflexivity].
  - destruct (f a) eqn:Fa.
    + split; [discriminate|]. intros H.
      specialize (H a (or_introl eq_refl)). congruence.
    + destruct (Py.first_index f l) eqn:Ek.
      * split; [discriminate|]. intros H.
        assert (Some n = None) as Hn; [|discriminate Hn].
        apply IH. intros x Hx. apply H. now right.
      * split; [|reflexivity]. intros _ x [<-|Hx]; [assumption|].
        now apply (proj1 IH).
Qed.

Lemma first_index_find (f : A -> bool) l n x :
  Py.first_index f l = Some n -> nth_error l n = Some x ->
  find f l = Some x.
Proof.
  revert n. induction l as [|a l IH]; intros n; cbn [Py.first_index find].
  - discriminate.
  - destruct (f a) eqn:Fa.
    + intros [= <-]. cbn. congruence.
    + destruct (Py.first_index f l) as [k|] eqn:Ek; [|discriminate].
      intros [= <-]. cbn [nth_error]. now apply IH.
Qed.

Lemma In_firstn_In n l x : In x (firstn n l) -> In x l.
Proof.
  revert n. induction l as [|a l IH]; intros [|n]; cbn [firstn In]; auto.
  - intros [].
  - intros [->|H]; [now left | right; now apply (IH n)].
Qed.

Lemma In_del l n x : In x (Py.del l n) -> In x l.
Proof.
  unfold Py.del. revert n.
  induction l as [|a l IH]; intros [|n]; cbn [firstn skipn app In];
    auto.
  intros [->|H]; [now left | right; now apply (IH n)].
Qed.

Lemma In_inserted_iff l k x y :
  In y (firstn k l ++ x :: skipn k l) <-> y = x \/ In y l.
Proof.
  rewrite <- (firstn_skipn k l) at 3.
  rewrite !in_app_iff. cbn [In]. intuition congruence.
Qed.

Lemma insert_point_le len pos k : Py.insert_point len pos = Some k -> k <= len.
Proof.
  unfold Py.insert_point. destruct (Py.fits_ssize_t pos); [|discriminate].
  intros [= <-].
  destruct (pos <? 0)%Z eqn:Ep; [apply Z.ltb_lt in Ep | apply Z.ltb_ge in Ep];
    lia.
Qed.

End PyLists.

(** ** Equations of the methods *)

Section MethodEquations.

Import CustomNotebook.

Ltac unfold_monad :=
  cbv beta iota zeta delta [bind ret raise get_pages get_current_page set_pages
                  set_current_page tk new_object subscript] in *.

Lemma logged_nil nb : logged [] nb = nb.
Proof. destruct nb. unfold logged. cbn. now rewrite app_nil_r. Qed.

Lemma logged_logged cs1 cs2 nb :
  logged cs2 (logged cs1 nb) = logged (cs1 ++ cs2) nb.
Proof. unfold logged. cbn. now rewrite app_assoc. Qed.

Lemma tk_eq c nb : tk c nb = (Py.Return tt, logged [c] nb).
Proof. reflexivity. Qed.

Lemma for_each_tk {A} (g : A -> Tk.call) (l : list A) nb :
  for_each l (fun x => tk (g x)) nb = (Py.Return tt, logged (map g l) nb).
Proof.
  revert nb. induction l as [|a l IH]; intros nb; cbn [for_each map].
  - unfold ret. now rewrite logged_nil.
  - unfold bind at 1. rewrite tk_eq, IH, logged_logged. reflexivity.
Qed.

Lemma rearrange_tabs_eq nb :
  _rearrange_tabs nb = (Py.Return tt, logged (grid_calls (pages nb)) nb).
Proof.
  unfold _rearrange_tabs, bind at 1, get_pages.
  apply for_each_tk.
Qed.

(** [select_by_index]: out of range it raises and changes nothing; on the
    current page it returns and changes nothing; otherwise it switches. *)
Lemma select_by_index_eq index nb :
  select_by_index index nb =
  match Py.getitem (pages nb) index with
  | None => (Py.Raise Py.IndexError, nb)
  | Some new_page =>
      if is_current new_page (current_page nb) then (Py.Return tt, nb)
      else (Py.Return tt,
            mk (closable nb) (pages nb) (Some new_page) (next_object nb)
               (tk_log nb ++ switch_calls new_page (current_page nb)))
  end.
Proof.
  unfold select_by_index. unfold_monad.
  destruct (Py.getitem (pages nb) index) as [new_page|]; [|reflexivity].
  destruct (is_current new_page (current_page nb)); [reflexivity|].
  unfold switch_calls.
  destruct (current_page nb) as [q|]; cbn;
    now rewrite <- !app_assoc.
Qed.

Lemma select_tab_eq tab nb :
  select_tab tab nb =
  match Py.first_index (fun page => CustomNotebookPage.tab page =? tab)
                       (pages nb) with
  | Some i => select_by_index (Z.of_nat i) nb
  | None => (Py.Raise Py.ValueError, nb)
  end.
Proof.
  unfold select_tab. unfold_monad.
  now destruct (Py.first_index _ (pages nb)).
Qed.

Lemma index_eq id nb :
  index id nb =
  if is_end id then (Py.Return (Z.of_nat (length (pages nb))), nb)
  else match Py.first_index (matches id) (pages nb) with
       | Some i => (Py.Return (Z.of_nat i), nb)
       | None => (Py.Raise Py.RuntimeError, nb)
       end.
Proof.
  unfold index. unfold_monad.
  destruct (is_end id); [reflexivity|].
  now destruct (Py.first_index _ (pages nb)).
Qed.

Lemma length_del {A} (l : list A) i x :
  nth_error l i = Some x -> S (length (Py.del l i)) = length l.
Proof.
  intros H. assert (i < length l) by (apply nth_error_Some; congruence).
  unfold Py.del. rewrite length_app, length_firstn, length_skipn. lia.
Qed.

(** [forget] of a child held by the page at index [i] (the first such
    page): the page is removed, the current page is re-pointed, and the
    layout calls are logged. *)
Lemma forget_found child nb i :
  Py.first_index
    (fun page => widget_is child (CustomNotebookPage.content page))
    (pages nb) = Some i ->
  exists page,
    nth_error (pages nb) i = Some page
    /\ widget_is child (CustomNotebookPage.content page) = true
    /\ forget child nb =
       (Py.Return tt,
        mk (closable nb) (Py.del (pages nb) i)
           (page_after_removal (Py.del (pages nb) i) i)
           (next_object nb)
           (tk_log nb
            ++ Tk.ContentGridForget (CustomNotebookPage.content page)
            :: Tk.TabGridForget (CustomNotebookPage.tab page)
            :: grid_calls (Py.del (pages nb) i))).
Proof.
  intros Hi.
  destruct (first_index_Some _ _ Hi) as (page & Hpage & Hchild & _).
  exists page. repeat split; try assumption.
  pose proof (length_del _ _ Hpage) as Hlen.
  unfold forget. unfold bind at 1. unfold get_pages at 1.
  rewrite Hi. unfold subscript at 1. rewrite getitem_of_nat, Hpage.
  unfold_monad. cbn [pages current_page closable next_object tk_log].
  unfold page_after_removal.
  destruct (Py.del (pages nb) i) as [|p0 ps0] eqn:Edel.
  - cbn [length Nat.eqb]. rewrite rearrange_tabs_eq. unfold logged. cbn.
    now rewrite <- !app_assoc.
  - cbn [length Nat.eqb]. cbn [length] in Hlen.
    destruct (i <? S (length ps0)) eqn:Elt.
    + rewrite getitem_of_nat.
      destruct (nth_error (p0 :: ps0) i) as [p|] eqn:Ep.
      * rewrite rearrange_tabs_eq. unfold logged. cbn.
        now rewrite <- !app_assoc.
      * apply nth_error_None in Ep. apply Nat.ltb_lt in Elt.
        cbn [length] in Ep. lia.
    + destruct (getitem_nonempty_last (l := p0 :: ps0)) as [p Hp];
        [discriminate|].
      rewrite Hp. rewrite rearrange_tabs_eq. unfold logged. cbn.
      now rewrite <- !app_assoc.
Qed.

Lemma forget_not_found child nb :
  Py.first_index
    (fun page => widget_is child (CustomNotebookPage.content page))
    (pages nb) = None ->
  forget child nb = (Py.Raise Py.ValueError, nb).
Proof.
  intros Hi. unfold forget. unfold bind at 1. unfold get_pages at 1.
  now rewrite Hi.
Qed.

Lemma close_tab_eq tab nb :
  close_tab tab nb =
  match find (fun page => CustomNotebookPage.tab page =? tab) (pages nb) with
  | Some page => forget (CustomNotebookPage.content page) nb
  | None => (Py.Raise Py.ValueError, nb)
  end.
Proof.
  unfold close_tab. unfold bind at 1. unfold get_pages at 1.
  now destruct (find _ (pages nb)).
Qed.

End MethodEquations.

Section MoreEquations.

Import CustomNotebook.

(** [insert]: the tab and the page object are created; then either the
    list update raises, or the page is put in, the tabs are re-gridded and
    the new tab is selected. *)
Lemma insert_eq pos child text nb :
  insert pos child text nb =
  let tab := next_object nb in
  let page := CustomNotebookPage.mk (S tab) tab child in
  match insertion_index pos (length (pages nb)) with
  | Some k =>
      let ps' := firstn k (pages nb) ++ page :: skipn k (pages nb) in
      select_tab tab
        (mk (closable nb) ps' (current_page nb) (S (S tab))
            (tk_log nb ++ Tk.NewTab tab text (closable nb) :: grid_calls ps'))
  | None =>
      (Py.Raise Py.OverflowError,
       mk (closable nb) (pages nb) (current_page nb) (S (S tab))
          (tk_log nb ++ [Tk.NewTab tab text (closable nb)]))
  end.
Proof.
  unfold insert.
  cbv beta iota zeta delta [bind ret new_object tk get_pages].
  cbn [pages current_page closable next_object tk_log CustomNotebookPage.tab].
  destruct pos as [|p]; cbn [insertion_index].
  - rewrite firstn_all, skipn_all. unfold set_pages.
    cbn [pages current_page closable next_object tk_log].
    rewrite rearrange_tabs_eq. unfold logged.
    cbn [pages current_page closable next_object tk_log].
    now rewrite <- !app_assoc.
  - unfold Py.list_insert.
    destruct (Py.insert_point (length (pages nb)) p) as [k|]; [|reflexivity].
    unfold set_pages.
    cbn [pages current_page closable next_object tk_log].
    rewrite rearrange_tabs_eq. unfold logged.
    cbn [pages current_page closable next_object tk_log].
    now rewrite <- !app_assoc.
Qed.

Lemma insertion_index_le pos len k :
  insertion_index pos len = Some k -> k <= len.
Proof.
  destruct pos as [|p]; cbn [insertion_index].
  - intros [= <-]. lia.
  - apply insert_point_le.
Qed.

Lemma select_eq id nb :
  select id nb =
  match id with
  | TidNone =>
      (Py.Return
         (option_map (fun p => winfo_name (CustomNotebookPage.content p))
                     (current_page nb)), nb)
  | _ =>
      match index id nb with
      | (Py.Return i, nb') =>
          match select_by_index i nb' with
          | (Py.Return _, nb'') => (Py.Return None, nb'')
          | (Py.Raise e, nb'') => (Py.Raise e, nb'')
          end
      | (Py.Raise e, nb') => (Py.Raise e, nb')
      end
  end.
Proof.
  destruct id as [|s|w]; unfold select, bind, get_current_page, ret.
  - now destruct (current_page nb).
  - destruct (index (TidStr s) nb) as [[i|e] nb']; [|reflexivity].
    now destruct (select_by_index i nb') as [[[]|e] nb''].
  - destruct (index (TidWidget w) nb) as [[i|e] nb']; [|reflexivity].
    now destruct (select_by_index i nb') as [[[]|e] nb''].
Qed.

Lemma close_tabs_from_S position except_tab nb :
  close_tabs_from (S position) except_tab nb =
  match nth_error (pages nb) position with
  | None => (Py.Return tt, nb)
  | Some page =>
      if is_except (CustomNotebookPage.tab page) except_tab
      then close_tabs_from position except_tab nb
      else match close_tab (CustomNotebookPage.tab page) nb with
           | (Py.Return _, nb') => close_tabs_from position except_tab nb'
           | (Py.Raise e, nb') => (Py.Raise e, nb')
           end
  end.
Proof.
  cbn [close_tabs_from]. unfold bind at 1. unfold get_pages at 1.
  destruct (nth_error (pages nb) position) as [page|]; [|reflexivity].
  unfold bind at 1.
  destruct (is_except (CustomNotebookPage.tab page) except_tab);
    [reflexivity|].
  now destruct (close_tab (CustomNotebookPage.tab page) nb) as [[[]|e] nb'].
Qed.

End MoreEquations.

(** ** The current-page invariant *)

Section Invariant.

Import CustomNotebook.

Lemma select_by_index_unchanged_or_switched index nb :
  run (select_by_index index) nb = nb
  \/ exists p,
       In p (pages nb)
       /\ pages (run (select_by_index index) nb) = pages nb
       /\ current_page (run (select_by_index index) nb) = Some p.
Proof.
  unfold run. rewrite select_by_index_eq.
  destruct (Py.getitem (pages nb) index) as [p|] eqn:E; [|now left].
  destruct (is_current p (current_page nb)); [now left|].
  right. exists p. cbn. repeat split. eapply getitem_In; eauto.
Qed.

Lemma invariant_intro nb p :
  current_page nb = Some p -> In p (pages nb) -> current_page_invariant nb.
Proof.
  intros Hc Hin. split.
  - split; intros H; [congruence|].
    rewrite H in Hin. destruct Hin.
  - intros q Hq. congruence.
Qed.

Lemma select_by_index_invariant index nb :
  current_page_invariant nb ->
  current_page_invariant (run (select_by_index index) nb).
Proof.
  intros Hinv.
  destruct (select_by_index_unchanged_or_switched index nb)
    as [->|(p & Hin & Hps & Hcur)]; [assumption|].
  apply invariant_intro with p; [assumption | now rewrite Hps].
Qed.

Lemma select_tab_invariant tab nb :
  current_page_invariant nb ->
  current_page_invariant (run (select_tab tab) nb).
Proof.
  intros Hinv. unfold run. rewrite select_tab_eq.
  destruct (Py.first_index _ (pages nb)) as [i|]; [|assumption].
  now apply select_by_index_invariant.
Qed.

Lemma index_state id nb : snd (index id nb) = nb.
Proof.
  rewrite index_eq. destruct (is_end id); [reflexivity|].
  now destruct (Py.first_index (matches id) (pages nb)).
Qed.

Lemma select_invariant id nb :
  current_page_invariant nb ->
  current_page_invariant (run (select id) nb).
Proof.
  intros Hinv. unfold run. rewrite select_eq.
  destruct id as [|s|w]; [assumption| |].
  - pose proof (index_state (TidStr s) nb) as Hs.
    destruct (index (TidStr s) nb) as [[i|e] nb']; cbn [snd] in Hs; subst nb';
      [|assumption].
    pose proof (select_by_index_invariant i Hinv) as H. unfold run in H.
    now destruct (select_by_index i nb) as [[[]|e] nb''].
  - pose proof (index_state (TidWidget w) nb) as Hs.
    destruct (index (TidWidget w) nb) as [[i|e] nb']; cbn [snd] in Hs;
      subst nb'; [|assumption].
    pose proof (select_by_index_invariant i Hinv) as H. unfold run in H.
    now destruct (select_by_index i nb) as [[[]|e] nb''].
Qed.

Lemma page_after_removal_invariant ps' i c n log :
  current_page_invariant (mk c ps' (page_after_removal ps' i) n log).
Proof.
  unfold page_after_removal.
  destruct ps' as [|p0 ps0].
  - split; cbn; [tauto | discriminate].
  - destruct (i <? length (p0 :: ps0)) eqn:Elt.
    + apply Nat.ltb_lt in Elt.
      destruct (nth_error (p0 :: ps0) i) as [p|] eqn:Ep.
      * apply invariant_intro with p; cbn [current_page pages]; [reflexivity|].
        eapply nth_error_In; eauto.
      * apply nth_error_None in Ep. lia.
    + destruct (getitem_nonempty_last (l := p0 :: ps0)) as [p Hp];
        [discriminate|].
      rewrite Hp. apply invariant_intro with p; cbn [current_page pages]; [reflexivity|].
      eapply getitem_In; eauto.
Qed.

Lemma forget_invariant child nb :
  current_page_invariant nb ->
  current_page_invariant (run (forget child) nb).
Proof.
  intros Hinv. unfold run.
  destruct (Py.first_index
              (fun page => widget_is child (CustomNotebookPage.content page))
              (pages nb)) as [i|] eqn:Ei.
  - destruct (forget_found _ _ Ei) as (page & _ & _ & ->).
    apply page_after_removal_invariant.
  - now rewrite forget_not_found.
Qed.

Lemma close_tab_invariant tab nb :
  current_page_invariant nb ->
  current_page_invariant (run (close_tab tab) nb).
Proof.
  intros Hinv. unfold run. rewrite close_tab_eq.
  destruct (find _ (pages nb)) as [page|]; [|assumption].
  now apply forget_invariant.
Qed.

Lemma close_tabs_from_invariant n except_tab nb :
  current_page_invariant nb ->
  current_page_invariant (run (close_tabs_from n except_tab) nb).
Proof.
  revert nb. induction n as [|position IH]; intros nb Hinv; [assumption|].
  unfold run. rewrite close_tabs_from_S.
  destruct (nth_error (pages nb) position) as [page|]; [|assumption].
  destruct (is_except (CustomNotebookPage.tab page) except_tab).
  - now apply IH.
  - pose proof (close_tab_invariant (CustomNotebookPage.tab page) Hinv) as H.
    unfold run in H.
    destruct (close_tab (CustomNotebookPage.tab page) nb) as [[[]|e] nb'];
      cbn [snd] in H; [now apply IH | assumption].
Qed.

Lemma close_tabs_invariant except_tab nb :
  current_page_invariant nb ->
  current_page_invariant (run (close_tabs except_tab) nb).
Proof.
  intros Hinv. unfold run, close_tabs. unfold bind at 1.
  unfold get_pages at 1. now apply close_tabs_from_invariant.
Qed.

(** After the list update of [insert] the new tab is found among the
    pages, so [select_tab] reaches [select_by_index] with a valid index. *)
Lemma first_index_exists {A} (f : A -> bool) (l : list A) x :
  In x l -> f x = true ->
  exists i y, Py.first_index f l = Some i /\ nth_error l i = Some y
              /\ f y = true.
Proof.
  intros Hin Hf.
  destruct (Py.first_index f l) as [i|] eqn:E.
  - destruct (first_index_Some _ _ E) as (y & Hy & Fy & _).
    now exists i, y.
  - rewrite first_index_None in E. specialize (E x Hin). congruence.
Qed.

Lemma In_inserted k (page : Page) ps :
  In page (firstn k ps ++ page :: skipn k ps).
Proof. apply In_inserted_iff. now left. Qed.

Lemma In_inserted_old k (page q : Page) ps :
  In q ps -> In q (firstn k ps ++ page :: skipn k ps).
Proof. intros H. apply In_inserted_iff. now right. Qed.

Lemma insert_invariant pos child text nb :
  current_page_invariant nb ->
  current_page_invariant (run (insert pos child text) nb).
Proof.
  intros Hinv. unfold run. rewrite insert_eq. cbv zeta.
  destruct (insertion_index pos (length (pages nb))) as [k|];
    [|destruct Hinv; split; assumption].
  destruct Hinv as [_ Hcur].
  set (page := CustomNotebookPage.mk _ _ child).
  set (ps' := firstn k _ ++ page :: skipn k _).
  assert (In page ps') as Hpage by apply In_inserted.
  rewrite select_tab_eq. cbn [pages].
  destruct (first_index_exists
              (fun q => CustomNotebookPage.tab q =? next_object nb)
              ps' page Hpage (Nat.eqb_refl _))
    as (i & y & -> & Hy & _).
  rewrite select_by_index_eq. cbn [pages current_page].
  rewrite getitem_of_nat, Hy.
  destruct (is_current y (current_page nb)) eqn:Ecur.
  - destruct (current_page nb) as [q|] eqn:Eq; [|discriminate].
    apply invariant_intro with q; cbn [current_page pages]; [reflexivity|].
    apply In_inserted_old. now apply Hcur.
  - apply invariant_intro with y; cbn [current_page pages]; [reflexivity|].
    eapply nth_error_In; eauto.
Qed.

Lemma perform_invariant o nb :
  current_page_invariant nb -> current_page_invariant (perform o nb).
Proof.
  intros Hinv. destruct o; cbn [perform].
  - now apply insert_invariant.
  - now apply insert_invariant.
  - now apply forget_invariant.
  - now apply select_invariant.
  - now apply select_by_index_invariant.
  - now apply select_tab_invariant.
  - now apply close_tab_invariant.
  - now apply close_tabs_invariant.
Qed.

Lemma init_invariant closable : current_page_invariant (__init__ closable).
Proof. split; cbn; [tauto | discriminate]. Qed.

Lemma states_after_invariant ops nb :
  current_page_invariant nb ->
  Forall current_page_invariant (states_after ops nb).
Proof.
  revert nb. induction ops as [|o ops IH]; intros nb Hinv;
    cbn [states_after]; constructor.
  - now apply perform_invariant.
  - apply IH. now apply perform_invariant.
Qed.

End Invariant.

(** C1.  Whatever sequence of public operations ([add], [insert], [forget],
    [select], [select_by_index], [select_tab], [close_tab], [close_tabs]) is
    applied to a freshly constructed notebook, and whether the single calls
    return or raise, after each of them the current page is [None] exactly
    when there are no pages, and otherwise it is one of the pages. *)
Theorem current_page_invariant_always (closable : bool) (ops : list operation) :
  Forall
    (fun nb =>
       (CustomNotebook.current_page nb = None <-> CustomNotebook.pages nb = [])
       /\ (forall p, CustomNotebook.current_page nb = Some p ->
                     In p (CustomNotebook.pages nb)))
    (states_after ops (CustomNotebook.__init__ closable)).
Proof.
  apply (states_after_invariant ops (init_invariant closable)).
Qed.

(** ** Sample notebooks are what their comments say *)

Example notebook_ABC_pages :
  CustomNotebook.pages Sample.notebook_ABC
  = [Sample.page_A; Sample.page_B; Sample.page_C]
  /\ CustomNotebook.current_page Sample.notebook_ABC = Some Sample.page_C.
Proof. split; reflexivity. Qed.

Example notebook_ABC_on_A_pages :
  CustomNotebook.pages Sample.notebook_ABC_on_A
  = [Sample.page_A; Sample.page_B; Sample.page_C]
  /\ CustomNotebook.current_page Sample.notebook_ABC_on_A
     = Some Sample.page_A.
Proof. split; reflexivity. Qed.

Example notebook_ABCD_pages :
  CustomNotebook.pages Sample.notebook_ABCD
  = [Sample.page_A; Sample.page_B; Sample.page_C; Sample.page_D]
  /\ CustomNotebook.current_page Sample.notebook_ABCD = Some Sample.page_D.
Proof. split; reflexivity. Qed.

(** ** [forget] and the current page *)

(** The three cases of the tie-break when the removed page is the current
    one: right neighbour, new last page, nothing left. *)
Example forget_current_middle :
  let nb := perform (SelectByIndex 1) Sample.notebook_ABC in
  CustomNotebook.current_page nb = Some Sample.page_B
  /\ CustomNotebook.current_page (run (CustomNotebook.forget Sample.B) nb)
     = Some Sample.page_C.
Proof. split; reflexivity. Qed.

Example forget_current_last :
  CustomNotebook.current_page
    (run (CustomNotebook.forget Sample.C) Sample.notebook_ABC)
  = Some Sample.page_B.
Proof. reflexivity. Qed.

Example forget_current_only :
  CustomNotebook.current_page
    (run (CustomNotebook.forget Sample.A) Sample.notebook_A)
  = None.
Proof. reflexivity. Qed.

(** C2.  [forget] re-points the current page whether or not the removed page
    was the current one.  With pages [A, B, C] and current page [A],
    [forget(C)] returns, leaves pages [A, B], and makes [B] the current page:
    the current page was not the one removed, and it changed. *)
Theorem forget_other_page_moves_current :
  let nb := Sample.notebook_ABC_on_A in
  let nb' := run (CustomNotebook.forget Sample.C) nb in
  CustomNotebook.pages nb = [Sample.page_A; Sample.page_B; Sample.page_C]
  /\ CustomNotebook.current_page nb = Some Sample.page_A
  /\ outcome (CustomNotebook.forget Sample.C) nb = Py.Return tt
  /\ CustomNotebook.pages nb' = [Sample.page_A; Sample.page_B]
  /\ CustomNotebook.current_page nb' = Some Sample.page_B
  /\ CustomNotebook.current_page nb' <> CustomNotebook.current_page nb.
Proof.
  cbv zeta. repeat split; try reflexivity.
  vm_compute. discriminate.
Qed.

(** C4.  [forget] of the current page re-points [current_page] by plain
    assignment; it does not go through [select_by_index].  With pages [A, B]
    and current page [B], [forget(B)] makes [A] current, but the only Tk
    calls are the two [grid_forget]s and the re-gridding of [A]'s tab: no
    [update_state(True)] on [A]'s tab, whose last state stays inactive, and no
    [<<NotebookTabChanged>>] event.  Selecting [A] through [select_by_index]
    from the same state does both. *)
Theorem forget_current_does_not_select :
  let nb := Sample.notebook_AB in
  let nb' := run (CustomNotebook.forget Sample.B) nb in
  let nb'' := run (CustomNotebook.select_by_index 0) nb in
  CustomNotebook.current_page nb = Some Sample.page_B
  /\ CustomNotebook.current_page nb' = Some Sample.page_A
  /\ calls_since nb nb'
     = [Tk.ContentGridForget Sample.B; Tk.TabGridForget 2; Tk.TabGrid 0 0]
  /\ Tk.notifications (calls_since nb nb') = 0
  /\ Tk.tab_state (CustomNotebook.tk_log nb') 0 None = Some false
  /\ CustomNotebook.current_page nb'' = Some Sample.page_A
  /\ Tk.notifications (calls_since nb nb'') = 1
  /\ Tk.tab_state (CustomNotebook.tk_log nb'') 0 None = Some true.
Proof.
  cbv zeta. repeat split; reflexivity.
Qed.

(** ** Subscripts: [select_by_index] and [get_child_by_index] *)

Section Subscripts.

Import CustomNotebook.

Lemma get_child_by_index_eq index nb :
  get_child_by_index index nb =
  match Py.getitem (pages nb) index with
  | Some page => (Py.Return (CustomNotebookPage.content page), nb)
  | None => (Py.Raise Py.IndexError, nb)
  end.
Proof.
  unfold get_child_by_index, bind, get_pages, subscript, ret, raise.
  now destruct (Py.getitem (pages nb) index).
Qed.

Lemma select_by_index_raises index nb :
  outcome (select_by_index index) nb = Py.Raise Py.IndexError
  <-> Py.getitem (pages nb) index = None.
Proof.
  unfold outcome. rewrite select_by_index_eq.
  destruct (Py.getitem (pages nb) index) as [p|].
  - destruct (is_current p (current_page nb)); cbn; split; discriminate.
  - cbn. tauto.
Qed.

Lemma get_child_by_index_raises index nb :
  outcome (get_child_by_index index) nb = Py.Raise Py.IndexError
  <-> Py.getitem (pages nb) index = None.
Proof.
  unfold outcome. rewrite get_child_by_index_eq.
  destruct (Py.getitem (pages nb) index) as [p|]; cbn.
  - split; discriminate.
  - tauto.
Qed.

Lemma select_by_index_raise_keeps_state index nb e :
  outcome (select_by_index index) nb = Py.Raise e ->
  e = Py.IndexError /\ run (select_by_index index) nb = nb.
Proof.
  unfold outcome, run. rewrite select_by_index_eq.
  destruct (Py.getitem (pages nb) index) as [p|].
  - destruct (is_current p (current_page nb)); cbn; discriminate.
  - cbn. intros [= <-]. now split.
Qed.

Lemma get_child_by_index_keeps_state index nb :
  run (get_child_by_index index) nb = nb.
Proof.
  unfold run. rewrite get_child_by_index_eq.
  now destruct (Py.getitem (pages nb) index).
Qed.

End Subscripts.

(** C5, as stated, fails: on the one-page notebook [A] the index [-1] lies
    outside [0, len(pages))], yet neither method raises: [-1] denotes the last
    page. *)
Lemma negative_index_is_accepted :
  let nb := Sample.notebook_A in
  ~ (0 <= -1 < Z.of_nat (length (CustomNotebook.pages nb)))%Z
  /\ outcome (CustomNotebook.get_child_by_index (-1)) nb = Py.Return Sample.A
  /\ outcome (CustomNotebook.select_by_index (-1)) nb = Py.Return tt.
Proof.
  cbv zeta. split; [lia|]. split; reflexivity.
Qed.

(** C5, amended.  [select_by_index(i)] and [get_child_by_index(i)] raise
    [IndexError] exactly when [i] lies outside [-len(pages), len(pages))]
    (an index in [-len(pages), 0)] counts from the end); they raise nothing
    else; and when they raise, the notebook (pages, current page, Tk calls)
    is as it was. *)
Theorem index_error_iff_out_of_range (nb : Notebook) (i : Z) :
  let len := Z.of_nat (length (CustomNotebook.pages nb)) in
  (outcome (CustomNotebook.select_by_index i) nb = Py.Raise Py.IndexError
   <-> (i < - len \/ len <= i)%Z)
  /\ (outcome (CustomNotebook.get_child_by_index i) nb = Py.Raise Py.IndexError
      <-> (i < - len \/ len <= i)%Z)
  /\ (forall e, outcome (CustomNotebook.select_by_index i) nb = Py.Raise e ->
                e = Py.IndexError
                /\ run (CustomNotebook.select_by_index i) nb = nb)
  /\ (forall e, outcome (CustomNotebook.get_child_by_index i) nb = Py.Raise e ->
                e = Py.IndexError)
  /\ run (CustomNotebook.get_child_by_index i) nb = nb.
Proof.
  cbv zeta. split; [|split; [|split; [|split]]].
  - rewrite select_by_index_raises. apply getitem_None.
  - rewrite get_child_by_index_raises. apply getitem_None.
  - intros e H. now apply select_by_index_raise_keeps_state.
  - intros e H. unfold outcome in H. rewrite get_child_by_index_eq in H.
    destruct (Py.getitem (CustomNotebook.pages nb) i); cbn in H; congruence.
  - apply get_child_by_index_keeps_state.
Qed.

(** ** Selecting the current page, selecting another page *)

Section Selection.

Import CustomNotebook.

Lemma calls_since_app nb c ps cur n cs :
  calls_since nb (mk c ps cur n (tk_log nb ++ cs)) = cs.
Proof.
  unfold calls_since. cbn [tk_log].
  rewrite skipn_app, skipn_all, Nat.sub_diag. reflexivity.
Qed.

Lemma notifications_switch_calls p cur :
  Tk.notifications (switch_calls p cur) = 1.
Proof. now destruct cur. Qed.



Lemma select_as_select_by_index id i nb :
  id <> TidNone ->
  outcome (index id) nb = Py.Return i ->
  outcome (select id) nb
  = match outcome (select_by_index i) nb with
    | Py.Return _ => Py.Return None
    | Py.Raise e => Py.Raise e
    end
  /\ run (select id) nb = run (select_by_index i) nb.
Proof.
  intros Hid Hi. unfold outcome, run in *. rewrite select_eq.
  pose proof (index_state id nb) as Hs.
  destruct (index id nb) as [[j|e] nb']; cbn [fst snd] in *;
    [|discriminate].
  injection Hi as ->. subst nb'.
  destruct id; [congruence| |];
    now destruct (select_by_index i nb) as [[[]|e] nb''].
Qed.

End Selection.

(** ** Allocation: the objects of a notebook are older than the next one *)

Section Allocation.

Import CustomNotebook.

Lemma allocated_later nb nb' :
  next_object nb <= next_object nb' ->
  (forall p, In p (pages nb') -> In p (pages nb)) ->
  (forall p, current_page nb' = Some p ->
             In p (pages nb') \/ current_page nb = Some p) ->
  allocated nb -> allocated nb'.
Proof.
  intros Hnext Hpages Hcur Halloc p [Hp|Hp].
  - destruct (Halloc p (or_introl (Hpages p Hp))). lia.
  - destruct (Hcur p Hp) as [Hin|Hold].
    + destruct (Halloc p (or_introl (Hpages p Hin))). lia.
    + destruct (Halloc p (or_intror Hold)). lia.
Qed.

Lemma select_by_index_allocated index nb :
  allocated nb -> allocated (run (select_by_index index) nb).
Proof.
  unfold run. rewrite select_by_index_eq.
  destruct (Py.getitem (pages nb) index) as [p|] eqn:E; [|trivial].
  destruct (is_current p (current_page nb)); [trivial|].
  apply allocated_later; cbn [fst snd pages current_page next_object].
  - lia.
  - trivial.
  - intros q [= <-]. left. eapply getitem_In; eauto.
Qed.

Lemma select_tab_allocated tab nb :
  allocated nb -> allocated (run (select_tab tab) nb).
Proof.
  intros H. unfold run. rewrite select_tab_eq.
  destruct (Py.first_index _ (pages nb)) as [i|]; [|assumption].
  now apply select_by_index_allocated.
Qed.

Lemma select_allocated id nb :
  allocated nb -> allocated (run (select id) nb).
Proof.
  intros H. destruct id as [|s|w].
  - unfold run. now rewrite select_eq.
  - destruct (outcome (index (TidStr s)) nb) as [i|e] eqn:Ei.
    + destruct (@select_as_select_by_index (TidStr s) i nb) as [_ ->];
        [discriminate | assumption |].
      now apply select_by_index_allocated.
    + unfold run, outcome in *. rewrite select_eq.
      pose proof (index_state (TidStr s) nb) as Hs.
      destruct (index (TidStr s) nb) as [[i|e'] nb']; cbn [fst snd] in *;
        [discriminate | now subst nb'].
  - destruct (outcome (index (TidWidget w)) nb) as [i|e] eqn:Ei.
    + destruct (@select_as_select_by_index (TidWidget w) i nb) as [_ ->];
        [discriminate | assumption |].
      now apply select_by_index_allocated.
    + unfold run, outcome in *. rewrite select_eq.
      pose proof (index_state (TidWidget w) nb) as Hs.
      destruct (index (TidWidget w) nb) as [[i|e'] nb']; cbn [fst snd] in *;
        [discriminate | now subst nb'].
Qed.

Lemma page_after_removal_In ps' i p :
  page_after_removal ps' i = Some p -> In p ps'.
Proof.
  unfold page_after_removal. destruct ps' as [|p0 ps0]; [discriminate|].
  destruct (i <? length (p0 :: ps0)).
  - apply nth_error_In.
  - apply getitem_In.
Qed.

Lemma forget_allocated child nb :
  allocated nb -> allocated (run (forget child) nb).
Proof.
  intros H. unfold run.
  destruct (Py.first_index
              (fun page => widget_is child (CustomNotebookPage.content page))
              (pages nb)) as [i|] eqn:Ei.
  - destruct (forget_found _ _ Ei) as (page & _ & _ & ->).
    revert H. apply allocated_later;
      cbn [fst snd pages current_page next_object].
    + lia.
    + intros p. apply In_del.
    + intros p Hp. left. eapply page_after_removal_In; eauto.
  - now rewrite forget_not_found.
Qed.

Lemma close_tab_allocated tab nb :
  allocated nb -> allocated (run (close_tab tab) nb).
Proof.
  intros H. unfold run. rewrite close_tab_eq.
  destruct (find _ (pages nb)) as [page|]; [|assumption].
  now apply forget_allocated.
Qed.

Lemma close_tabs_from_allocated n except_tab nb :
  allocated nb -> allocated (run (close_tabs_from n except_tab) nb).
Proof.
  revert nb. induction n as [|position IH]; intros nb H; [assumption|].
  unfold run. rewrite close_tabs_from_S.
  destruct (nth_error (pages nb) position) as [page|]; [|assumption].
  destruct (is_except (CustomNotebookPage.tab page) except_tab).
  - now apply IH.
  - pose proof (close_tab_allocated (CustomNotebookPage.tab page) H) as H'.
    unfold run in H'.
    destruct (close_tab (CustomNotebookPage.tab page) nb) as [[[]|e] nb'];
      cbn [snd] in H'; [now apply IH | assumption].
Qed.

Lemma close_tabs_allocated except_tab nb :
  allocated nb -> allocated (run (close_tabs except_tab) nb).
Proof.
  intros H. unfold run, close_tabs. unfold bind at 1.
  unfold get_pages at 1. now apply close_tabs_from_allocated.
Qed.

(** In a list where only [x] passes the test, the search stops at [x]. *)
Lemma first_index_middle {A} (f : A -> bool) (l1 l2 : list A) x :
  (forall y, In y l1 -> f y = false) -> f x = true ->
  Py.first_index f (l1 ++ x :: l2) = Some (length l1).
Proof.
  intros Hl1 Hx. induction l1 as [|a l1 IH]; cbn [app Py.first_index length].
  - now rewrite Hx.
  - rewrite (Hl1 a (or_introl eq_refl)), IH; [reflexivity|].
    intros y Hy. apply Hl1. now right.
Qed.

Lemma nth_error_middle {A} (l1 l2 : list A) x :
  nth_error (l1 ++ x :: l2) (length l1) = Some x.
Proof.
  rewrite nth_error_app2, Nat.sub_diag; [reflexivity | lia].
Qed.

(** [insert] on a notebook that respects the allocation discipline, at a
    position [list.insert] accepts: where the new page lands, what becomes
    current, what is logged. *)
Lemma insert_allocated_eq pos child text nb k :
  allocated nb ->
  insertion_index pos (length (pages nb)) = Some k ->
  let tab := next_object nb in
  let page := CustomNotebookPage.mk (S tab) tab child in
  let ps' := firstn k (pages nb) ++ page :: skipn k (pages nb) in
  insert pos child text nb =
  (Py.Return tt,
   mk (closable nb) ps' (Some page) (S (S tab))
      (tk_log nb ++ Tk.NewTab tab text (closable nb)
                 :: grid_calls ps' ++ switch_calls page (current_page nb))).
Proof.
  intros Halloc Hk tab page ps'.
  rewrite insert_eq, Hk. cbv zeta. fold tab. fold page. fold ps'.
  rewrite select_tab_eq. cbn [pages].
  subst ps'.
  rewrite first_index_middle.
  - rewrite select_by_index_eq. cbn [pages current_page].
    rewrite getitem_of_nat, nth_error_middle.
    assert (is_current page (current_page nb) = false) as ->.
    { unfold is_current. destruct (current_page nb) as [q|] eqn:Eq;
        [|reflexivity].
      destruct (Halloc q (or_intror Eq)) as [Hq _].
      unfold CustomNotebookPage.eq. apply Nat.eqb_neq.
      cbn. subst tab. lia. }
    cbn [closable next_object tk_log].
    now rewrite <- app_assoc.
  - intros q Hq. apply Nat.eqb_neq.
    destruct (Halloc q (or_introl (In_firstn_In _ _ _ Hq))) as [_ Ht].
    subst tab. lia.
  - apply Nat.eqb_refl.
Qed.

(** [insert] at a position [list.insert] does not accept: the tab and the
    page object have been created, the call raises, and pages and current
    page are as they were. *)
Lemma insert_overflow pos child text nb :
  insertion_index pos (length (pages nb)) = None ->
  insert pos child text nb =
  (Py.Raise Py.OverflowError,
   mk (closable nb) (pages nb) (current_page nb) (S (S (next_object nb)))
      (tk_log nb ++ [Tk.NewTab (next_object nb) text (closable nb)])).
Proof. intros Hk. now rewrite insert_eq, Hk. Qed.

Lemma insertion_index_of_fits pos len :
  position_fits pos = true -> exists k, insertion_index pos len = Some k.
Proof.
  destruct pos as [|p]; cbn [insertion_index position_fits].
  - now exists len.
  - intros Hp. unfold Py.insert_point. rewrite Hp. now eexists.
Qed.

Lemma insertion_index_fits pos len :
  match insertion_index pos len with
  | Some _ => position_fits pos = true
  | None => position_fits pos = false
  end.
Proof.
  destruct pos as [|p]; cbn [insertion_index position_fits]; [reflexivity|].
  unfold Py.insert_point. now destruct (Py.fits_ssize_t p).
Qed.

End Allocation.

Section AllocationAlways.

Import CustomNotebook.

Lemma insert_allocated pos child text nb :
  allocated nb -> allocated (run (insert pos child text) nb).
Proof.
  intros Halloc. unfold run.
  destruct (insertion_index pos (length (pages nb))) as [k|] eqn:Hk.
  - rewrite (insert_allocated_eq pos child text Halloc Hk). cbv zeta.
    cbn [snd]. intros p.
    cbn [pages current_page next_object].
    assert (Hnew : p = CustomNotebookPage.mk (S (next_object nb))
                         (next_object nb) child ->
                   CustomNotebookPage.self p < S (S (next_object nb))
                   /\ CustomNotebookPage.tab p < S (S (next_object nb))).
    { intros ->. cbn. lia. }
    intros [Hp|Hp].
    + apply In_inserted_iff in Hp as [Hp|Hp]; [now apply Hnew|].
      destruct (Halloc p (or_introl Hp)). lia.
    + injection Hp as Hp. now apply Hnew.
  - rewrite (insert_overflow pos child text nb Hk). cbn [snd].
    revert Halloc. apply allocated_later;
      cbn [pages current_page next_object]; auto.
Qed.

Lemma perform_allocated o nb : allocated nb -> allocated (perform o nb).
Proof.
  intros H. destruct o; cbn [perform].
  - now apply insert_allocated.
  - now apply insert_allocated.
  - now apply forget_allocated.
  - now apply select_allocated.
  - now apply select_by_index_allocated.
  - now apply select_tab_allocated.
  - now apply close_tab_allocated.
  - now apply close_tabs_allocated.
Qed.

Lemma init_allocated closable : allocated (__init__ closable).
Proof. intros p [[]|H]; discriminate H. Qed.

(** Every state a fresh notebook can reach respects the allocation
    discipline. *)
Lemma allocated_always closable ops :
  Forall allocated (states_after ops (__init__ closable)).
Proof.
  generalize (@init_allocated closable).
  generalize (__init__ closable).
  induction ops as [|o ops IH]; intros nb H; cbn [states_after];
    constructor.
  - now apply perform_allocated.
  - apply IH. now apply perform_allocated.
Qed.

End AllocationAlways.

(** ** [insert] and [add] *)

(** C8.  On a notebook whose objects were all allocated before the next one
    (every state a fresh notebook can reach, [allocated_always]), after
    [insert(pos, child, text)] for [pos] either ["end"] or an [int] that
    [list.insert] accepts (one that fits a [Py_ssize_t]; every index in
    [0 .. len(pages)] does), and after [add(child, text)]: the call has
    returned; the page list is the old one with one new page put in (a page
    that was not there before, holding [child]); that new page is the
    current page; and [get_current_child()] returns [child]. *)
Theorem insert_makes_child_current
    (nb : Notebook) (pos : position) (child : Widget) (text : string)
    (Halloc : allocated nb) (Hpos : position_fits pos = true) :
  let new := CustomNotebookPage.mk (S (CustomNotebook.next_object nb))
                                   (CustomNotebook.next_object nb) child in
  let nb' := run (CustomNotebook.insert pos child text) nb in
  let nb'' := run (CustomNotebook.add child text) nb in
  ~ In new (CustomNotebook.pages nb)
  /\ outcome (CustomNotebook.insert pos child text) nb = Py.Return tt
  /\ (exists k,
        insertion_index pos (length (CustomNotebook.pages nb)) = Some k
        /\ CustomNotebook.pages nb'
           = firstn k (CustomNotebook.pages nb)
             ++ new :: skipn k (CustomNotebook.pages nb))
  /\ CustomNotebook.current_page nb' = Some new
  /\ outcome CustomNotebook.get_current_child nb' = Py.Return (Some child)
  /\ outcome (CustomNotebook.add child text) nb = Py.Return tt
  /\ CustomNotebook.pages nb'' = CustomNotebook.pages nb ++ [new]
  /\ CustomNotebook.current_page nb'' = Some new
  /\ outcome CustomNotebook.get_current_child nb'' = Py.Return (Some child).
Proof.
  cbv zeta.
  pose proof (insertion_index_fits pos (length (CustomNotebook.pages nb)))
    as Hfits.
  destruct (insertion_index pos (length (CustomNotebook.pages nb)))
    as [k|] eqn:Hk; [|congruence].
  assert (Hend : insertion_index PosEnd (length (CustomNotebook.pages nb))
                 = Some (length (CustomNotebook.pages nb))) by reflexivity.
  unfold CustomNotebook.add, outcome, run.
  rewrite (insert_allocated_eq pos child text Halloc Hk).
  rewrite (insert_allocated_eq PosEnd child text Halloc Hend).
  cbv zeta. cbn [fst snd CustomNotebook.pages CustomNotebook.current_page].
  rewrite firstn_all, skipn_all.
  split.
  { intros Hin. destruct (Halloc _ (or_introl Hin)) as [_ Ht].
    cbn in Ht. lia. }
  split; [reflexivity|]. split; [now exists k|]. now repeat split.
Qed.

Lemma sample_allocated : allocated Sample.notebook_ABC.
Proof.
  intros p.
  change (CustomNotebook.pages Sample.notebook_ABC)
    with [Sample.page_A; Sample.page_B; Sample.page_C].
  change (CustomNotebook.current_page Sample.notebook_ABC)
    with (Some Sample.page_C).
  change (CustomNotebook.next_object Sample.notebook_ABC) with 6.
  intros [Hp|Hp].
  - destruct Hp as [<-|[<-|[<-|[]]]]; cbn; lia.
  - injection Hp as <-. cbn. lia.
Qed.

Lemma insert_makes_child_current_witness :
  CustomNotebook.current_page
    (run (CustomNotebook.insert (PosInt 1) Sample.X "x") Sample.notebook_ABC)
  = Some (CustomNotebookPage.mk 7 6 Sample.X)
  /\ outcome CustomNotebook.get_current_child
             (run (CustomNotebook.insert (PosInt 1) Sample.X "x")
                  Sample.notebook_ABC)
     = Py.Return (Some Sample.X).
Proof.
  assert (Hpos : position_fits (PosInt 1) = true) by (vm_compute; reflexivity).
  destruct (@insert_makes_child_current Sample.notebook_ABC (PosInt 1)
              Sample.X "x"%string sample_allocated Hpos)
    as (_ & _ & _ & Hcur & Hchild & _).
  split; [exact Hcur | exact Hchild].
Defined.

(** C10, as stated, fails: a negative position is not clamped to the front,
    it counts from the end.  With pages [A, B], [insert(-1, X, "x")] puts
    [X] between [A] and [B]. *)
Lemma insert_negative_position_not_front :
  let nb' := run (CustomNotebook.insert (PosInt (-1)) Sample.X "x")
                 Sample.notebook_AB in
  map CustomNotebookPage.content (CustomNotebook.pages Sample.notebook_AB)
  = [Sample.A; Sample.B]
  /\ (-1 < 0)%Z
  /\ map CustomNotebookPage.content (CustomNotebook.pages nb')
     = [Sample.A; Sample.X; Sample.B]
  /\ hd_error (map CustomNotebookPage.content (CustomNotebook.pages nb'))
     <> Some Sample.X.
Proof.
  cbv zeta. split; [reflexivity|]. split; [lia|]. split; [reflexivity|].
  vm_compute. discriminate.
Qed.

(** C10, amended.  For every integer position [p] that fits a
    [Py_ssize_t], [insert(p, child, text)] returns (it does not raise).  The
    new page lands at index [p] when [0 <= p <= len]; at the end when
    [p >= len]; at index [len + p], counted from the end, when
    [-len <= p < 0]; and at the front when [p <= -len].  In each of these
    cases the new page is one of the pages and is the current page.  For a
    [p] outside the range of [Py_ssize_t], [list.insert] raises
    [OverflowError]: the page list and the current page are as they were and
    no event is generated. *)
Theorem insert_position_clamped
    (nb : Notebook) (p : Z) (child : Widget) (text : string)
    (Halloc : allocated nb) :
  let ps := CustomNotebook.pages nb in
  let len := Z.of_nat (length ps) in
  let nb' := run (CustomNotebook.insert (PosInt p) child text) nb in
  let page := CustomNotebookPage.mk (S (CustomNotebook.next_object nb))
                                    (CustomNotebook.next_object nb) child in
  (Py.fits_ssize_t p = true ->
   outcome (CustomNotebook.insert (PosInt p) child text) nb = Py.Return tt
   /\ ((0 <= p <= len)%Z ->
       CustomNotebook.pages nb'
       = firstn (Z.to_nat p) ps ++ page :: skipn (Z.to_nat p) ps)
   /\ ((len <= p)%Z -> CustomNotebook.pages nb' = ps ++ [page])
   /\ ((- len <= p < 0)%Z ->
       CustomNotebook.pages nb'
       = firstn (Z.to_nat (len + p)) ps
         ++ page :: skipn (Z.to_nat (len + p)) ps)
   /\ ((p <= - len)%Z -> CustomNotebook.pages nb' = page :: ps)
   /\ In page (CustomNotebook.pages nb')
   /\ CustomNotebook.current_page nb' = Some page)
  /\ (Py.fits_ssize_t p = false ->
      outcome (CustomNotebook.insert (PosInt p) child text) nb
      = Py.Raise Py.OverflowError
      /\ CustomNotebook.pages nb' = ps
      /\ CustomNotebook.current_page nb' = CustomNotebook.current_page nb
      /\ Tk.notifications (calls_since nb nb') = 0).
Proof.
  cbv zeta. unfold outcome, run. split; intros Hfit.
  - assert (Hk : insertion_index (PosInt p)
                   (length (CustomNotebook.pages nb))
                 = Some (if (p <? 0)%Z
                         then Z.to_nat
                                (Z.max 0
                                   (p + Z.of_nat
                                          (length (CustomNotebook.pages nb))))
                         else Z.to_nat
                                (Z.min p
                                   (Z.of_nat
                                      (length (CustomNotebook.pages nb))))))
      by (cbn [insertion_index]; unfold Py.insert_point; now rewrite Hfit).
    rewrite (insert_allocated_eq (PosInt p) child text Halloc Hk). cbv zeta.
    cbn [fst snd CustomNotebook.pages CustomNotebook.current_page].
    split; [reflexivity|].
    split; [|split; [|split; [|split; [|split]]]].
    + intros Hp.
      replace (p <? 0)%Z with false by (symmetry; apply Z.ltb_ge; lia).
      now rewrite Z.min_l by lia.
    + intros Hp.
      replace (p <? 0)%Z with false by (symmetry; apply Z.ltb_ge; lia).
      rewrite Z.min_r, Nat2Z.id by lia.
      now rewrite firstn_all, skipn_all.
    + intros Hp.
      replace (p <? 0)%Z with true by (symmetry; apply Z.ltb_lt; lia).
      rewrite Z.max_r by lia.
      now replace (p + Z.of_nat (length (CustomNotebook.pages nb)))%Z
        with (Z.of_nat (length (CustomNotebook.pages nb)) + p)%Z by lia.
    + intros Hp.
      destruct (p <? 0)%Z eqn:Ep.
      * now rewrite Z.max_l by lia.
      * apply Z.ltb_ge in Ep.
        assert (CustomNotebook.pages nb = []) as ->
            by (destruct (CustomNotebook.pages nb);
                [reflexivity | cbn in Hp; lia]).
        cbn. now destruct (Z.to_nat (Z.min p 0)).
    + apply in_or_app. right. now left.
    + reflexivity.
  - assert (Hk : insertion_index (PosInt p)
                   (length (CustomNotebook.pages nb)) = None)
      by (cbn [insertion_index]; unfold Py.insert_point; now rewrite Hfit).
    rewrite (insert_overflow (PosInt p) child text nb Hk).
    cbn [fst snd CustomNotebook.pages CustomNotebook.current_page].
    rewrite calls_since_app. now repeat split.
Qed.

Lemma insert_position_clamped_witness :
  CustomNotebook.pages
    (run (CustomNotebook.insert (PosInt (-7)) Sample.X "x")
         Sample.notebook_ABC)
  = CustomNotebookPage.mk 7 6 Sample.X
    :: CustomNotebook.pages Sample.notebook_ABC.
Proof.
  pose proof (@insert_position_clamped Sample.notebook_ABC (-7) Sample.X
                "x"%string sample_allocated) as H.
  cbv zeta in H.
  destruct H as (H & _).
  assert (Hfit : Py.fits_ssize_t (-7) = true) by (vm_compute; reflexivity).
  destruct (H Hfit) as (_ & _ & _ & _ & Hfront & _).
  apply Hfront. vm_compute. discriminate.
Defined.

(** Outside the range of [Py_ssize_t]: [insert(2**63, X, "x")] on the
    notebook [A, B, C] raises, and pages and current page stay. *)
Example insert_overflow_sample :
  outcome (CustomNotebook.insert (PosInt (2 ^ 63)) Sample.X "x")
          Sample.notebook_ABC = Py.Raise Py.OverflowError
  /\ CustomNotebook.pages
       (run (CustomNotebook.insert (PosInt (2 ^ 63)) Sample.X "x")
            Sample.notebook_ABC)
     = [Sample.page_A; Sample.page_B; Sample.page_C]
  /\ CustomNotebook.current_page
       (run (CustomNotebook.insert (PosInt (2 ^ 63)) Sample.X "x")
            Sample.notebook_ABC)
     = Some Sample.page_C.
Proof. repeat split; vm_compute; reflexivity. Qed.

(** ** Lookups that find nothing *)

(** C9.  [index(id)] with an identifier that matches no page raises
    [RuntimeError]; [forget(child)] with a [child] that is the content of no
    page raises [ValueError]; [close_tab(tab)] with a [tab] that is the tab
    of no page raises [ValueError].  These are the not-found errors; each
    reaches the caller, and the notebook (pages, current page, Tk calls) is
    as it was before the call.  The string ["end"] is not an identifier of a
    page but the append sentinel: [index("end")] returns [len(pages)]. *)
Theorem lookup_failure_raises_and_keeps_state (nb : Notebook) :
  (forall id,
     id <> TidStr "end" -> matches_no_page id nb ->
     CustomNotebook.index id nb = (Py.Raise Py.RuntimeError, nb))
  /\ (forall child,
        (forall p, In p (CustomNotebook.pages nb) ->
                   widget_is child (CustomNotebookPage.content p) = false) ->
        CustomNotebook.forget child nb = (Py.Raise Py.ValueError, nb))
  /\ (forall tab,
        (forall p, In p (CustomNotebook.pages nb) ->
                   CustomNotebookPage.tab p <> tab) ->
        CustomNotebook.close_tab tab nb = (Py.Raise Py.ValueError, nb))
  /\ not_found Py.RuntimeError
  /\ not_found Py.ValueError
  /\ CustomNotebook.index (TidStr "end") nb
     = (Py.Return (Z.of_nat (length (CustomNotebook.pages nb))), nb).
Proof.
  split; [|split; [|split; [|split; [|split]]]].
  - intros id Hid Hno.
    rewrite index_eq.
    assert (CustomNotebook.is_end id = false) as ->.
    { destruct id as [|s|w]; try reflexivity. cbn.
      destruct (String.eqb_spec s "end"); [congruence | reflexivity]. }
    apply first_index_None in Hno. now rewrite Hno.
  - intros child Hno.
    apply forget_not_found. now apply first_index_None.
  - intros tab Hno.
    rewrite close_tab_eq.
    destruct (find _ (CustomNotebook.pages nb)) as [page|] eqn:E;
      [|reflexivity].
    apply find_some in E as [Hin Htab]. apply Nat.eqb_eq in Htab.
    now destruct (Hno page Hin).
  - now right.
  - now left.
  - now rewrite index_eq.
Qed.

Lemma lookup_failure_raises_and_keeps_state_witness :
  CustomNotebook.index (TidStr "nonexistent") Sample.notebook_AB
  = (Py.Raise Py.RuntimeError, Sample.notebook_AB)
  /\ CustomNotebook.forget Sample.X Sample.notebook_AB
     = (Py.Raise Py.ValueError, Sample.notebook_AB)
  /\ CustomNotebook.close_tab 9 Sample.notebook_AB
     = (Py.Raise Py.ValueError, Sample.notebook_AB).
Proof.
  destruct (lookup_failure_raises_and_keeps_state Sample.notebook_AB)
    as (Hindex & Hforget & Hclose & _).
  change (CustomNotebook.pages Sample.notebook_AB)
    with [Sample.page_A; Sample.page_B] in Hforget, Hclose.
  split; [|split].
  - apply Hindex; [discriminate|].
    intros p.
    change (CustomNotebook.pages Sample.notebook_AB)
      with [Sample.page_A; Sample.page_B].
    intros [<-|[<-|[]]]; reflexivity.
  - apply Hforget. intros p [<-|[<-|[]]]; reflexivity.
  - apply Hclose. intros p [<-|[<-|[]]]; discriminate.
Defined.

(** ** Titles: [tab] and [tabs] *)

Section Titles.

Import CustomNotebook.

Lemma tab_eq id text nb :
  tab id text nb =
  match index id nb with
  | (Py.Return i, _) =>
      match Py.getitem (pages nb) i with
      | Some page =>
          (Py.Return tt,
           logged [Tk.TabSetTitle (CustomNotebookPage.tab page) text] nb)
      | None => (Py.Raise Py.IndexError, nb)
      end
  | (Py.Raise e, _) => (Py.Raise e, nb)
  end.
Proof.
  unfold tab. unfold bind at 1.
  pose proof (index_state id nb) as Hs.
  destruct (index id nb) as [[i|e] nb']; cbn [snd] in Hs; subst nb';
    [|reflexivity].
  unfold bind, get_pages, subscript, ret, raise.
  now destruct (Py.getitem (pages nb) i).
Qed.

Lemma label_text_set_title log t text t' shown :
  Tk.label_text (log ++ [Tk.TabSetTitle t text]) t' shown
  = if t =? t' then Some text else Tk.label_text log t' shown.
Proof.
  revert shown. induction log as [|c log IH]; intros shown.
  - reflexivity.
  - destruct c; cbn [app Tk.label_text]; apply IH.
Qed.

Lemma select_tab_pages t nb : pages (run (select_tab t) nb) = pages nb.
Proof.
  unfold run. rewrite select_tab_eq.
  destruct (Py.first_index _ (pages nb)) as [i|]; [|reflexivity].
  destruct (select_by_index_unchanged_or_switched (Z.of_nat i) nb)
    as [H|(_ & _ & H & _)]; unfold run in H; now rewrite H.
Qed.

Lemma add_pages child text nb :
  pages (run (add child text) nb)
  = pages nb ++ [CustomNotebookPage.mk (S (next_object nb)) (next_object nb)
                                       child].
Proof.
  unfold add, run. rewrite insert_eq. cbn [insertion_index]. cbv zeta.
  etransitivity; [apply (select_tab_pages (next_object nb))|].
  cbn [pages]. now rewrite firstn_all, skipn_all.
Qed.

Lemma widget_is_refl w : widget_is w w = true.
Proof. apply Nat.eqb_refl. Qed.

End Titles.

(** C3, as stated, fails: [tabs()] lists the Tk names of the content
    widgets, not the titles.  After [add(X, "t")] and [tab(X, "t2")] on the
    notebook [A, B], [tabs()] is ["a", "b", "x"]: the title ["t2"] is not in
    it. *)
Lemma tabs_lists_names_not_titles :
  let nb1 := run (CustomNotebook.add Sample.X "t") Sample.notebook_AB in
  let nb2 := run (CustomNotebook.tab (TidWidget Sample.X) "t2") nb1 in
  outcome CustomNotebook.tabs nb2 = Py.Return ["a"; "b"; "x"]%string
  /\ ~ In "t2"%string ["a"; "b"; "x"]%string.
Proof.
  cbv zeta. split; [reflexivity|].
  intros [H|[H|[H|[]]]]; discriminate H.
Qed.

(** C3, amended.  After [add(x, t)], the call [tab(x, t2)] returns; the label
    of the tab of [x]'s page (the first page whose content is [x]; the page
    just added when [x] was not in the notebook before) shows [t2]; the label
    of every other tab shows what it showed before; pages and current page
    are untouched; and [tabs()] returns the Tk names of the content widgets
    in page order, the same list as before the call to [tab]. *)
Theorem tab_sets_label_of_one_tab
    (nb : Notebook) (x : Widget) (t t2 : string) :
  let nb1 := run (CustomNotebook.add x t) nb in
  let nb2 := run (CustomNotebook.tab (TidWidget x) t2) nb1 in
  exists page,
    find (fun p => widget_is (CustomNotebookPage.content p) x)
         (CustomNotebook.pages nb1) = Some page
    /\ ((forall p, In p (CustomNotebook.pages nb) ->
                   widget_is (CustomNotebookPage.content p) x = false) ->
        page = CustomNotebookPage.mk (S (CustomNotebook.next_object nb))
                                     (CustomNotebook.next_object nb) x)
    /\ outcome (CustomNotebook.tab (TidWidget x) t2) nb1 = Py.Return tt
    /\ Tk.label_text (CustomNotebook.tk_log nb2)
                     (CustomNotebookPage.tab page) None = Some t2
    /\ (forall t',
          t' <> CustomNotebookPage.tab page ->
          Tk.label_text (CustomNotebook.tk_log nb2) t' None
          = Tk.label_text (CustomNotebook.tk_log nb1) t' None)
    /\ CustomNotebook.pages nb2 = CustomNotebook.pages nb1
    /\ CustomNotebook.current_page nb2 = CustomNotebook.current_page nb1
    /\ outcome CustomNotebook.tabs nb2
       = Py.Return (map (fun p => winfo_name (CustomNotebookPage.content p))
                        (CustomNotebook.pages nb1))
    /\ outcome CustomNotebook.tabs nb2 = outcome CustomNotebook.tabs nb1.
Proof.
  cbv zeta.
  set (nb1 := run (CustomNotebook.add x t) nb).
  set (new := CustomNotebookPage.mk (S (CustomNotebook.next_object nb))
                                    (CustomNotebook.next_object nb) x).
  assert (Hps : CustomNotebook.pages nb1 = CustomNotebook.pages nb ++ [new])
    by apply add_pages.
  assert (Hin : In new (CustomNotebook.pages nb1))
    by (rewrite Hps; apply in_or_app; right; now left).
  destruct (first_index_exists (CustomNotebook.matches (TidWidget x))
              (CustomNotebook.pages nb1) new Hin (widget_is_refl x))
    as (i & page & Hi & Hpage & Hx).
  exists page.
  assert (Htab : CustomNotebook.tab (TidWidget x) t2 nb1
                 = (Py.Return tt,
                    logged [Tk.TabSetTitle (CustomNotebookPage.tab page) t2]
                           nb1)).
  { rewrite tab_eq, index_eq. cbn [CustomNotebook.is_end].
    now rewrite Hi, getitem_of_nat, Hpage. }
  unfold outcome, run. rewrite Htab. cbn [fst snd].
  split; [|split; [|split; [|split; [|split; [|split; [|split; [|split]]]]]]].
  - apply (first_index_find _ _ Hi Hpage).
  - intros Hold. rewrite Hps in Hi, Hpage.
    rewrite (first_index_middle (CustomNotebook.matches (TidWidget x))
               (CustomNotebook.pages nb) [] new Hold (widget_is_refl x))
      in Hi.
    injection Hi as <-. rewrite nth_error_middle in Hpage. congruence.
  - reflexivity.
  - unfold logged. cbn [CustomNotebook.tk_log].
    now rewrite label_text_set_title, Nat.eqb_refl.
  - intros t' Ht'. unfold logged. cbn [CustomNotebook.tk_log].
    rewrite label_text_set_title.
    destruct (Nat.eqb_spec (CustomNotebookPage.tab page) t');
      [congruence | reflexivity].
  - reflexivity.
  - reflexivity.
  - reflexivity.
  - reflexivity.
Qed.

(** ** Closing several tabs *)

Section CloseTabs.

Import CustomNotebook.

Lemma forgotten_app log1 log2 :
  Tk.forgotten (log1 ++ log2) = Tk.forgotten log1 ++ Tk.forgotten log2.
Proof.
  induction log1 as [|c log1 IH]; [reflexivity|].
  destruct c; cbn [app Tk.forgotten]; now rewrite ?IH.
Qed.

Lemma forgotten_grid_calls ps : Tk.forgotten (grid_calls ps) = [].
Proof.
  unfold grid_calls. induction (Py.enumerate ps) as [|ip l IH];
    [reflexivity | exact IH].
Qed.

Lemma del_middle {A} (l1 l2 : list A) x :
  Py.del (l1 ++ x :: l2) (length l1) = l1 ++ l2.
Proof.
  unfold Py.del.
  rewrite firstn_app, firstn_all, Nat.sub_diag, app_nil_r.
  replace (S (length l1)) with (length (l1 ++ [x]))
    by (rewrite length_app; cbn; lia).
  replace (l1 ++ x :: l2) with ((l1 ++ [x]) ++ l2)
    by now rewrite <- app_assoc.
  now rewrite skipn_app, skipn_all, Nat.sub_diag.
Qed.

Lemma NoDup_map_middle {A B} (f : A -> B) (l1 l2 : list A) x :
  NoDup (map f (l1 ++ x :: l2)) ->
  NoDup (map f (l1 ++ l2))
  /\ (forall y, In y l1 -> f y <> f x).
Proof.
  rewrite !map_app. cbn [map]. intros H. split.
  - eapply NoDup_remove_1; eauto.
  - intros y Hy Heq. apply NoDup_remove_2 in H. apply H.
    apply in_or_app. left. rewrite <- Heq. now apply in_map.
Qed.

Lemma find_middle {A} (f : A -> bool) (l1 l2 : list A) x :
  (forall y, In y l1 -> f y = false) -> f x = true ->
  find f (l1 ++ x :: l2) = Some x.
Proof.
  intros Hl1 Hx. induction l1 as [|a l1 IH]; cbn [app find].
  - now rewrite Hx.
  - rewrite (Hl1 a (or_introl eq_refl)). apply IH.
    intros y Hy. apply Hl1. now right.
Qed.

(** [close_tab] on the tab of a page of a notebook whose pages have
    pairwise different tabs and contents: that page goes. *)
Lemma close_tab_member nb l1 p l2 :
  pages nb = l1 ++ p :: l2 ->
  NoDup (map CustomNotebookPage.tab (l1 ++ p :: l2)) ->
  NoDup (map (fun q => wid (CustomNotebookPage.content q))
             (l1 ++ p :: l2)) ->
  close_tab (CustomNotebookPage.tab p) nb =
  (Py.Return tt,
   mk (closable nb) (l1 ++ l2)
      (page_after_removal (l1 ++ l2) (length l1)) (next_object nb)
      (tk_log nb
       ++ Tk.ContentGridForget (CustomNotebookPage.content p)
       :: Tk.TabGridForget (CustomNotebookPage.tab p)
       :: grid_calls (l1 ++ l2))).
Proof.
  intros Hps Htabs Hcontents.
  apply NoDup_map_middle in Htabs as [_ Htabs].
  apply NoDup_map_middle in Hcontents as [_ Hcontents].
  rewrite close_tab_eq, Hps, find_middle.
  - assert (Hi : Py.first_index
                   (fun page =>
                      widget_is (CustomNotebookPage.content p)
                                (CustomNotebookPage.content page))
                   (pages nb) = Some (length l1)).
    { rewrite Hps. apply first_index_middle.
      - intros y Hy. apply Nat.eqb_neq. intros Heq.
        now apply (Hcontents y Hy).
      - apply Nat.eqb_refl. }
    destruct (forget_found _ _ Hi) as (page & Hpage & _ & ->).
    rewrite Hps, nth_error_middle in Hpage. injection Hpage as <-.
    now rewrite Hps, del_middle.
  - intros y Hy. apply Nat.eqb_neq. now apply Htabs.
  - apply Nat.eqb_refl.
Qed.

(** The loop of [close_tabs], started at the end of [l1], on a notebook
    whose pages are [l1 ++ kept] and pairwise different: the pages of [l1]
    other than the excepted one are forgotten from the last to the first,
    and nothing else is. *)
Lemma close_tabs_from_eq except_tab l1 :
  forall kept nb,
    pages nb = l1 ++ kept ->
    NoDup (map CustomNotebookPage.tab (l1 ++ kept)) ->
    NoDup (map (fun q => wid (CustomNotebookPage.content q))
               (l1 ++ kept)) ->
    exists cur log,
      close_tabs_from (length l1) except_tab nb
      = (Py.Return tt,
         mk (closable nb)
            (filter (fun p => is_except (CustomNotebookPage.tab p)
                                        except_tab) l1 ++ kept)
            cur (next_object nb) (tk_log nb ++ log))
      /\ Tk.forgotten log
         = rev (map CustomNotebookPage.content
                    (filter (fun p => negb (is_except
                                              (CustomNotebookPage.tab p)
                                              except_tab)) l1)).
Proof.
  induction l1 as [|p l IH] using rev_ind; intros kept nb Hps Htabs Hcont.
  - exists (current_page nb), []. split; [|reflexivity].
    cbn [length close_tabs_from filter app] in *. unfold ret.
    rewrite app_nil_r, <- Hps. now destruct nb.
  - rewrite <- app_assoc in Hps, Htabs, Hcont. cbn [app] in Hps, Htabs, Hcont.
    rewrite length_app, Nat.add_1_r, close_tabs_from_S.
    rewrite Hps, nth_error_middle, !filter_app. cbn [filter].
    destruct (is_except (CustomNotebookPage.tab p) except_tab) eqn:Ep;
      cbn [negb].
    + destruct (IH (p :: kept) nb Hps Htabs Hcont)
        as (cur & log & -> & Hlog).
      exists cur, log. rewrite <- app_assoc, app_nil_r. now split.
    + rewrite (close_tab_member nb l p kept Hps Htabs Hcont).
      set (nb' := mk _ (l ++ kept) _ _ _).
      destruct (IH kept nb' eq_refl
                   (proj1 (NoDup_map_middle _ _ _ _ Htabs))
                   (proj1 (NoDup_map_middle _ _ _ _ Hcont)))
        as (cur & log & -> & Hlog).
      exists cur.
      exists (Tk.ContentGridForget (CustomNotebookPage.content p)
              :: Tk.TabGridForget (CustomNotebookPage.tab p)
              :: grid_calls (l ++ kept) ++ log).
      split.
      * subst nb'. cbn [closable next_object tk_log].
        rewrite app_nil_r, <- app_assoc. reflexivity.
      * cbn [Tk.forgotten]. rewrite forgotten_app, forgotten_grid_calls.
        cbn [app]. rewrite Hlog, map_app, rev_app_distr. reflexivity.
Qed.

Lemma close_tabs_eq except_tab nb :
  NoDup (map CustomNotebookPage.tab (pages nb)) ->
  NoDup (map (fun q => wid (CustomNotebookPage.content q)) (pages nb)) ->
  outcome (close_tabs except_tab) nb = Py.Return tt
  /\ pages (run (close_tabs except_tab) nb)
     = filter (fun p => is_except (CustomNotebookPage.tab p) except_tab)
              (pages nb)
  /\ Tk.forgotten (calls_since nb (run (close_tabs except_tab) nb))
     = rev (map CustomNotebookPage.content
                (filter (fun p => negb (is_except (CustomNotebookPage.tab p)
                                                  except_tab))
                        (pages nb))).
Proof.
  intros Htabs Hcont.
  unfold outcome, run, close_tabs, bind, get_pages.
  destruct (close_tabs_from_eq except_tab (pages nb) [] nb)
    as (cur & log & -> & Hlog); rewrite ?app_nil_r; try assumption;
    try reflexivity.
  cbn [fst snd pages]. rewrite calls_since_app. now repeat split.
Qed.

End CloseTabs.

(** C7.  On a notebook whose pages are [A, B, C, D] (four pages with four
    different tabs and four different content widgets), "close others" from
    [B], that is [close_tabs(except_tab = B.tab)], returns, forgets [D], [C]
    and [A] in this order, and leaves the pages [B]; "close all", that is
    [close_tabs()], returns, forgets [D], [C], [B] and [A] in this order, and
    leaves no page. *)
Theorem close_others_and_close_all
    (nb : Notebook) (A B C D : Page)
    (Hpages : CustomNotebook.pages nb = [A; B; C; D])
    (Htabs : NoDup (map CustomNotebookPage.tab [A; B; C; D]))
    (Hcontents : NoDup (map (fun p => wid (CustomNotebookPage.content p))
                            [A; B; C; D])) :
  let others := CustomNotebook.close_tabs (Some (CustomNotebookPage.tab B)) in
  let all := CustomNotebook.close_tabs None in
  outcome others nb = Py.Return tt
  /\ CustomNotebook.pages (run others nb) = [B]
  /\ Tk.forgotten (calls_since nb (run others nb))
     = [CustomNotebookPage.content D; CustomNotebookPage.content C;
        CustomNotebookPage.content A]
  /\ outcome all nb = Py.Return tt
  /\ CustomNotebook.pages (run all nb) = []
  /\ Tk.forgotten (calls_since nb (run all nb))
     = [CustomNotebookPage.content D; CustomNotebookPage.content C;
        CustomNotebookPage.content B; CustomNotebookPage.content A].
Proof.
  cbv zeta.
  rewrite <- Hpages in Htabs, Hcontents.
  destruct (close_tabs_eq (Some (CustomNotebookPage.tab B)) nb Htabs Hcontents)
    as (Ho & Hp & Hf).
  destruct (close_tabs_eq None nb Htabs Hcontents) as (Ho' & Hp' & Hf').
  rewrite Ho, Hp, Hf, Ho', Hp', Hf', Hpages.
  rewrite Hpages in Htabs.
  cbn [map] in Htabs.
  assert (EA : (CustomNotebookPage.tab A =? CustomNotebookPage.tab B) = false).
  { apply Nat.eqb_neq. intros E. inversion Htabs as [|? ? Hn _]; subst.
    apply Hn. rewrite E. now left. }
  assert (EC : (CustomNotebookPage.tab C =? CustomNotebookPage.tab B) = false).
  { apply Nat.eqb_neq. intros E. inversion Htabs as [|? ? _ Hr]; subst.
    inversion Hr as [|? ? Hn _]; subst. apply Hn. rewrite E. now left. }
  assert (ED : (CustomNotebookPage.tab D =? CustomNotebookPage.tab B) = false).
  { apply Nat.eqb_neq. intros E. inversion Htabs as [|? ? _ Hr]; subst.
    inversion Hr as [|? ? Hn _]; subst. apply Hn. rewrite E. right. now left. }
  cbn [filter CustomNotebook.is_except negb map rev app].
  rewrite EA, EC, ED, Nat.eqb_refl.
  cbn [filter CustomNotebook.is_except negb map rev app].
  repeat split.
Qed.

Lemma close_others_and_close_all_witness :
  CustomNotebook.pages
    (run (CustomNotebook.close_tabs (Some 2)) Sample.notebook_ABCD)
  = [Sample.page_B]
  /\ Tk.forgotten
       (calls_since Sample.notebook_ABCD
          (run (CustomNotebook.close_tabs (Some 2)) Sample.notebook_ABCD))
     = [Sample.D; Sample.C; Sample.A]
  /\ CustomNotebook.pages
       (run (CustomNotebook.close_tabs None) Sample.notebook_ABCD)
     = []
  /\ Tk.forgotten
       (calls_since Sample.notebook_ABCD
          (run (CustomNotebook.close_tabs None) Sample.notebook_ABCD))
     = [Sample.D; Sample.C; Sample.B; Sample.A].
Proof.
  assert (Hpages : CustomNotebook.pages Sample.notebook_ABCD
                   = [Sample.page_A; Sample.page_B; Sample.page_C;
                      Sample.page_D]) by (vm_compute; reflexivity).
  assert (Htabs : NoDup (map CustomNotebookPage.tab
                             [Sample.page_A; Sample.page_B; Sample.page_C;
                              Sample.page_D])).
  { cbn. repeat constructor; cbn; lia. }
  assert (Hcontents : NoDup (map (fun p => wid (CustomNotebookPage.content p))
                                 [Sample.page_A; Sample.page_B; Sample.page_C;
                                  Sample.page_D])).
  { cbn. repeat constructor; cbn; lia. }
  destruct (close_others_and_close_all Sample.notebook_ABCD
              Hpages Htabs Hcontents) as (_ & H1 & H2 & _ & H3 & H4).
  repeat split; assumption.
Defined.

(** The assumption on the content widgets is used.  [forget] looks a page up
    by its content, so when the same widget was added twice, closing the tab
    of the later page removes the earlier one: with pages [A, B, C, B'] where
    [B'] holds the widget of [B], "close others" from [B] leaves no page. *)
Example close_others_with_shared_content :
  let nb := perform (Add Sample.B "B again") Sample.notebook_ABC in
  map CustomNotebookPage.content (CustomNotebook.pages nb)
  = [Sample.A; Sample.B; Sample.C; Sample.B]
  /\ nth_error (CustomNotebook.pages nb) 1 = Some Sample.page_B
  /\ CustomNotebook.pages
       (run (CustomNotebook.close_tabs (Some 2)) nb) = [].
Proof. cbv zeta. repeat split; reflexivity. Qed.

(** ** [forget], in general *)

Section ForgetInGeneral.

Import CustomNotebook.

Lemma calls_since_same nb : calls_since nb nb = [].
Proof. unfold calls_since. apply skipn_all. Qed.

Lemma notifications_grid_calls ps : Tk.notifications (grid_calls ps) = 0.
Proof.
  unfold Tk.notifications, grid_calls.
  induction (Py.enumerate ps) as [|ip l IH]; [reflexivity | exact IH].
Qed.

Lemma update_state_grid_calls ps :
  filter Tk.is_update_state (grid_calls ps) = [].
Proof.
  unfold grid_calls.
  induction (Py.enumerate ps) as [|ip l IH]; [reflexivity | exact IH].
Qed.

(** Whatever the current page was, after a [forget] that finds its page at
    index [i] the current page is the one now at index [i], or else the last
    one, or else [None]. *)
Lemma forget_current_page child nb i :
  Py.first_index
    (fun page => widget_is child (CustomNotebookPage.content page))
    (pages nb) = Some i ->
  pages (run (forget child) nb) = Py.del (pages nb) i
  /\ current_page (run (forget child) nb)
     = page_after_removal (Py.del (pages nb) i) i.
Proof.
  intros Hi. unfold run.
  destruct (forget_found _ _ Hi) as (page & _ & _ & ->).
  now split.
Qed.

(** No call of [forget] activates or deactivates a tab header or generates
    an event. *)
Lemma forget_makes_no_selection child nb :
  Tk.notifications (calls_since nb (run (forget child) nb)) = 0
  /\ filter Tk.is_update_state (calls_since nb (run (forget child) nb)) = [].
Proof.
  unfold run.
  destruct (Py.first_index
              (fun page => widget_is child (CustomNotebookPage.content page))
              (pages nb)) as [i|] eqn:Ei.
  - destruct (forget_found _ _ Ei) as (page & _ & _ & ->).
    cbn [snd]. rewrite calls_since_app. split.
    + apply notifications_grid_calls.
    + apply update_state_grid_calls.
  - rewrite forget_not_found by assumption. cbn [snd].
    now rewrite calls_since_same.
Qed.

End ForgetInGeneral.

(** * Further properties of the notebook and of the tab callbacks *)

(** ** Which calls can fail, and what a failed call leaves behind *)

Section Failures.

Import CustomNotebook.


Lemma index_raises_only id nb : raises_only [Py.RuntimeError] (index id) nb.
Proof.
  intros e. unfold outcome, run. rewrite index_eq.
  destruct (is_end id); [discriminate|].
  destruct (Py.first_index (matches id) (pages nb)); [discriminate|].
  cbn. intros [= <-]. split; [now left | reflexivity].
Qed.

Lemma select_raises_only id nb :
  raises_only [Py.RuntimeError; Py.IndexError] (select id) nb.
Proof.
  intros e. unfold outcome, run. rewrite select_eq.
  destruct id as [|s|w]; [discriminate| |].
  - pose proof (@index_raises_only (TidStr s) nb) as Hi.
    pose proof (index_state (TidStr s) nb) as Hs.
    unfold raises_only, outcome, run in Hi.
    destruct (index (TidStr s) nb) as [[i|e'] nb']; cbn [fst snd] in *;
      subst nb'.
    + pose proof (@select_by_index_raise_keeps_state i nb) as Hr.
      unfold outcome, run in Hr.
      destruct (select_by_index i nb) as [[[]|e''] nb'']; cbn [fst snd] in *;
        [discriminate|].
      intros [= <-]. destruct (Hr e'' eq_refl) as [-> ->].
      split; [right; now left | reflexivity].
    + intros [= <-]. destruct (Hi e' eq_refl) as [[<-|[]] _].
      split; [now left | reflexivity].
  - pose proof (@index_raises_only (TidWidget w) nb) as Hi.
    pose proof (index_state (TidWidget w) nb) as Hs.
    unfold raises_only, outcome, run in Hi.
    destruct (index (TidWidget w) nb) as [[i|e'] nb']; cbn [fst snd] in *;
      subst nb'.
    + pose proof (@select_by_index_raise_keeps_state i nb) as Hr.
      unfold outcome, run in Hr.
      destruct (select_by_index i nb) as [[[]|e''] nb'']; cbn [fst snd] in *;
        [discriminate|].
      intros [= <-]. destruct (Hr e'' eq_refl) as [-> ->].
      split; [right; now left | reflexivity].
    + intros [= <-]. destruct (Hi e' eq_refl) as [[<-|[]] _].
      split; [now left | reflexivity].
Qed.




(** [close_tab] on the tab of one of the pages: it returns, and one page is
    gone, the first one that holds the content of the first page with that
    tab. *)
Lemma close_tab_present t p nb :
  In p (pages nb) -> CustomNotebookPage.tab p = t ->
  exists i x,
    nth_error (pages nb) i = Some x
    /\ close_tab t nb =
       (Py.Return tt,
        mk (closable nb) (Py.del (pages nb) i)
           (page_after_removal (Py.del (pages nb) i) i) (next_object nb)
           (tk_log nb
            ++ Tk.ContentGridForget (CustomNotebookPage.content x)
            :: Tk.TabGridForget (CustomNotebookPage.tab x)
            :: grid_calls (Py.del (pages nb) i))).
Proof.
  intros Hin Ht. rewrite close_tab_eq.
  destruct (find (fun page => CustomNotebookPage.tab page =? t) (pages nb))
    as [page|] eqn:Ef.
  - apply find_some in Ef as [Hpage _].
    destruct (first_index_exists
                (fun q => widget_is (CustomNotebookPage.content page)
                                    (CustomNotebookPage.content q))
                (pages nb) page Hpage (widget_is_refl _))
      as (i & y & Hi & _ & _).
    destruct (forget_found _ _ Hi) as (x & Hx & _ & ->).
    now exists i, x.
  - apply (find_none _ _ Ef) in Hin. apply Nat.eqb_neq in Hin. congruence.
Qed.

(** The loop of [close_tabs] returns; it only removes pages and only logs
    layout calls. *)
Lemma close_tabs_from_returns n except_tab :
  forall nb,
  exists ps' cur' cs,
    close_tabs_from n except_tab nb
    = (Py.Return tt,
       mk (closable nb) ps' cur' (next_object nb) (tk_log nb ++ cs))
    /\ Tk.notifications cs = 0
    /\ filter Tk.is_update_state cs = [].
Proof.
  induction n as [|position IH]; intros nb.
  - exists (pages nb), (current_page nb), []. cbn [close_tabs_from].
    unfold ret. rewrite app_nil_r. destruct nb. now repeat split.
  - rewrite close_tabs_from_S.
    destruct (nth_error (pages nb) position) as [page|] eqn:Ep.
    + destruct (is_except (CustomNotebookPage.tab page) except_tab).
      * apply IH.
      * destruct (@close_tab_present (CustomNotebookPage.tab page) page nb
                    (nth_error_In _ _ Ep) eq_refl) as (i & x & _ & ->).
        set (nb' := mk _ _ _ _ _).
        destruct (IH nb') as (ps' & cur' & cs & -> & Hn & Hu).
        subst nb'. cbn [closable next_object tk_log].
        exists ps', cur'.
        exists (Tk.ContentGridForget (CustomNotebookPage.content x)
                :: Tk.TabGridForget (CustomNotebookPage.tab x)
                :: grid_calls (Py.del (pages nb) i) ++ cs).
        split; [now rewrite <- app_assoc|].
        unfold Tk.notifications in *. cbn [filter Tk.is_event
                                             Tk.is_update_state].
        rewrite !filter_app, length_app, Hu.
        fold (Tk.notifications (grid_calls (Py.del (pages nb) i))).
        rewrite notifications_grid_calls, update_state_grid_calls, Hn.
        now split.
    + exists (pages nb), (current_page nb), [].
      rewrite app_nil_r. destruct nb. now repeat split.
Qed.

Lemma insert_outcome pos child text nb :
  outcome (insert pos child text) nb
  = if position_fits pos then Py.Return tt else Py.Raise Py.OverflowError.
Proof.
  unfold outcome. rewrite insert_eq. cbv zeta.
  pose proof (insertion_index_fits pos (length (pages nb))) as Hfits.
  destruct (insertion_index pos (length (pages nb))) as [k|];
    rewrite Hfits; [|reflexivity].
  set (page := CustomNotebookPage.mk _ _ child).
  set (ps' := firstn k _ ++ page :: skipn k _).
  rewrite select_tab_eq. cbn [pages].
  destruct (first_index_exists
              (fun q => CustomNotebookPage.tab q =? next_object nb)
              ps' page (In_inserted k page (pages nb)) (Nat.eqb_refl _))
    as (i & y & -> & Hy & _).
  rewrite select_by_index_eq. cbn [pages current_page].
  rewrite getitem_of_nat, Hy.
  now destruct (is_current y (current_page nb)).
Qed.

End Failures.


(** X2.  On every notebook: [insert] returns when the position is ["end"]
    or an [int] that fits a [Py_ssize_t]; for any other position it raises
    [OverflowError], and then the page list and the current page are as they
    were and no event was generated.  [add], [close_tabs] (with or without
    an excepted tab) and the menu callbacks "close all" and "close others"
    always return. *)
Theorem insert_overflow_only_and_close_tabs_never_raise (nb : Notebook) :
  (forall pos child text,
     position_fits pos = true ->
     never_raises (CustomNotebook.insert pos child text) nb)
  /\ (forall pos child text,
        position_fits pos = false ->
        let nb' := run (CustomNotebook.insert pos child text) nb in
        outcome (CustomNotebook.insert pos child text) nb
        = Py.Raise Py.OverflowError
        /\ CustomNotebook.pages nb' = CustomNotebook.pages nb
        /\ CustomNotebook.current_page nb' = CustomNotebook.current_page nb
        /\ Tk.notifications (calls_since nb nb') = 0)
  /\ (forall child text, never_raises (CustomNotebook.add child text) nb)
  /\ (forall except_tab,
        never_raises (CustomNotebook.close_tabs except_tab) nb)
  /\ (forall self, never_raises (CustomNotebookTab._close_all_tabs self) nb)
  /\ (forall self, never_raises (CustomNotebookTab._close_other_tabs self) nb).
Proof.
  assert (Hclose : forall except_tab,
             never_raises (CustomNotebook.close_tabs except_tab) nb).
  { intros except_tab. exists tt.
    unfold outcome, CustomNotebook.close_tabs, CustomNotebook.bind,
      CustomNotebook.get_pages.
    destruct (close_tabs_from_returns
                (length (CustomNotebook.pages nb)) except_tab nb)
      as (ps' & cur' & cs & -> & _). reflexivity. }
  split; [|split; [|split; [|split; [|split]]]].
  - intros pos child text Hpos. exists tt.
    now rewrite insert_outcome, Hpos.
  - intros pos child text Hpos. cbv zeta.
    pose proof (insertion_index_fits pos (length (CustomNotebook.pages nb)))
      as Hfits.
    destruct (insertion_index pos (length (CustomNotebook.pages nb)))
      as [k|] eqn:Hk; [congruence|].
    unfold outcome, run. rewrite (insert_overflow pos child text nb Hk).
    cbn [fst snd CustomNotebook.pages CustomNotebook.current_page].
    rewrite calls_since_app. now repeat split.
  - intros child text. exists tt.
    unfold CustomNotebook.add. now rewrite insert_outcome.
  - exact Hclose.
  - intros self. apply Hclose.
  - intros self. apply Hclose.
Qed.

(** ** "Close all" *)

Section CloseAll.

Import CustomNotebook.

Lemma close_all_from n :
  forall nb,
    length (pages nb) = n ->
    exists cs,
      close_tabs_from n None nb
      = (Py.Return tt,
         mk (closable nb) []
            match n with 0 => current_page nb | S _ => None end
            (next_object nb) (tk_log nb ++ cs))
      /\ length (Tk.forgotten cs) = n.
Proof.
  induction n as [|position IH]; intros nb Hlen.
  - exists []. cbn [close_tabs_from]. unfold ret.
    apply length_zero_iff_nil in Hlen.
    rewrite app_nil_r, <- Hlen. destruct nb. now split.
  - rewrite close_tabs_from_S.
    destruct (nth_error (pages nb) position) as [page|] eqn:Ep.
    + cbn [is_except].
      destruct (@close_tab_present (CustomNotebookPage.tab page) page nb
                  (nth_error_In _ _ Ep) eq_refl) as (i & x & Hx & ->).
      pose proof (length_del _ _ Hx) as Hdel. rewrite Hlen in Hdel.
      injection Hdel as Hdel.
      set (nb' := mk _ _ _ _ _).
      destruct (IH nb' Hdel) as (cs & -> & Hcs).
      exists (Tk.ContentGridForget (CustomNotebookPage.content x)
              :: Tk.TabGridForget (CustomNotebookPage.tab x)
              :: grid_calls (Py.del (pages nb) i) ++ cs).
      subst nb'. cbn [closable next_object tk_log current_page].
      split.
      * rewrite <- app_assoc. cbn [app].
        destruct position as [|position']; [|reflexivity].
        apply length_zero_iff_nil in Hdel. now rewrite Hdel.
      * cbn [Tk.forgotten]. rewrite forgotten_app, forgotten_grid_calls.
        cbn [app length]. now rewrite Hcs.
    + apply nth_error_None in Ep. lia.
Qed.

End CloseAll.

(** X3.  "Close all" ([close_tabs()] and the menu callback
    [_close_all_tabs]) empties every notebook, whatever its pages are: it
    returns, no page is left, as many contents were taken out of the layout
    as there were pages, and, when there was a page, the current page is
    [None] afterwards. *)
Theorem close_all_empties_notebook (nb : Notebook) (self : nat) :
  let nb' := run (CustomNotebookTab._close_all_tabs self) nb in
  nb' = run (CustomNotebook.close_tabs None) nb
  /\ outcome (CustomNotebookTab._close_all_tabs self) nb = Py.Return tt
  /\ CustomNotebook.pages nb' = []
  /\ length (Tk.forgotten (calls_since nb nb'))
     = length (CustomNotebook.pages nb)
  /\ (CustomNotebook.pages nb <> [] ->
      CustomNotebook.current_page nb' = None
      /\ outcome CustomNotebook.get_current_child nb' = Py.Return None).
Proof.
  cbv zeta.
  unfold CustomNotebookTab._close_all_tabs, outcome, run,
    CustomNotebook.close_tabs, CustomNotebook.bind, CustomNotebook.get_pages.
  destruct (close_all_from nb eq_refl) as (cs & -> & Hcs).
  cbn [fst snd CustomNotebook.pages CustomNotebook.current_page].
  rewrite calls_since_app.
  split; [reflexivity|]. split; [reflexivity|]. split; [reflexivity|].
  split; [assumption|].
  intros Hne. unfold CustomNotebook.get_current_child, CustomNotebook.bind,
    CustomNotebook.get_current_page.
  cbn [CustomNotebook.current_page].
  destruct (CustomNotebook.pages nb); [congruence|]. now split.
Qed.

Lemma close_all_empties_notebook_witness :
  CustomNotebook.current_page
    (run (CustomNotebookTab._close_all_tabs 2) Sample.notebook_ABC) = None.
Proof.
  apply (close_all_empties_notebook Sample.notebook_ABC 2).
  vm_compute. discriminate.
Defined.

(** ** The string ["end"] *)

(** X4.  [index("end")] returns [len(pages)], which is not the index of a
    page; so [select("end")] and [tab("end", text)] raise [IndexError] on
    every notebook, even one that holds a widget named ["end"], and leave it
    as it was. *)
Theorem end_is_not_a_page (nb : Notebook) (text : string) :
  CustomNotebook.index (TidStr "end") nb
  = (Py.Return (Z.of_nat (length (CustomNotebook.pages nb))), nb)
  /\ CustomNotebook.select (TidStr "end") nb = (Py.Raise Py.IndexError, nb)
  /\ CustomNotebook.tab (TidStr "end") text nb = (Py.Raise Py.IndexError, nb).
Proof.
  assert (Hnone : Py.getitem (CustomNotebook.pages nb)
                    (Z.of_nat (length (CustomNotebook.pages nb))) = None)
    by (apply getitem_None; lia).
  assert (Hindex : CustomNotebook.index (TidStr "end") nb
                   = (Py.Return (Z.of_nat (length (CustomNotebook.pages nb))),
                      nb))
    by now rewrite index_eq.
  split; [assumption|]. split.
  - now rewrite select_eq, Hindex, select_by_index_eq, Hnone.
  - now rewrite tab_eq, Hindex, Hnone.
Qed.

(** ** Looking pages up *)

Section Lookup.

Import CustomNotebook.

Lemma is_end_false id : id <> TidStr "end" -> is_end id = false.
Proof.
  intros Hid. destruct id as [|s|w]; try reflexivity. cbn.
  destruct (String.eqb_spec s "end"); [congruence | reflexivity].
Qed.

Lemma pages_after_insert pos child text nb :
  pages (run (insert pos child text) nb)
  = match insertion_index pos (length (pages nb)) with
    | Some k =>
        firstn k (pages nb)
        ++ CustomNotebookPage.mk (S (next_object nb)) (next_object nb) child
        :: skipn k (pages nb)
    | None => pages nb
    end.
Proof.
  unfold run. rewrite insert_eq. cbv zeta.
  destruct (insertion_index pos (length (pages nb))) as [k|]; [|reflexivity].
  apply (select_tab_pages (next_object nb)).
Qed.

End Lookup.

(** X5.  Lookup round trip.  When [index(id)] returns [i] for an [id] other
    than ["end"], then [i] is a valid non-negative index,
    [get_child_by_index(i)] returns the content of a page that matches [id]
    (the widget itself, or a widget with that Tk name), and no page before
    index [i] matches [id]. *)
Theorem index_finds_first_match
    (nb : Notebook) (id : tab_id) (i : Z)
    (Hid : id <> TidStr "end")
    (Hi : outcome (CustomNotebook.index id) nb = Py.Return i) :
  (0 <= i < Z.of_nat (length (CustomNotebook.pages nb)))%Z
  /\ exists page,
       nth_error (CustomNotebook.pages nb) (Z.to_nat i) = Some page
       /\ CustomNotebook.matches id page = true
       /\ outcome (CustomNotebook.get_child_by_index i) nb
          = Py.Return (CustomNotebookPage.content page)
       /\ forall j q,
            j < Z.to_nat i ->
            nth_error (CustomNotebook.pages nb) j = Some q ->
            CustomNotebook.matches id q = false.
Proof.
  unfold outcome in *. rewrite index_eq, (is_end_false Hid) in Hi.
  destruct (Py.first_index (CustomNotebook.matches id)
                           (CustomNotebook.pages nb)) as [n|] eqn:En;
    [|discriminate].
  cbn [fst] in Hi. injection Hi as <-.
  destruct (first_index_Some _ _ En) as (page & Hpage & Hm & Hbefore).
  assert (n < length (CustomNotebook.pages nb))
    by (apply nth_error_Some; congruence).
  split; [lia|].
  exists page. rewrite Nat2Z.id.
  split; [assumption|]. split; [assumption|]. split.
  - now rewrite get_child_by_index_eq, getitem_of_nat, Hpage.
  - intros j q Hj Hq.
    apply (proj1 (first_index_None _ _) Hbefore).
    apply nth_error_In with j.
    rewrite nth_error_firstn.
    now replace (j <? n) with true by (symmetry; now apply Nat.ltb_lt).
Qed.

Lemma index_finds_first_match_witness :
  exists page,
    nth_error (CustomNotebook.pages Sample.notebook_ABC) (Z.to_nat 1)
    = Some page
    /\ CustomNotebook.matches (TidStr "b") page = true.
Proof.
  assert (Hid : TidStr "b" <> TidStr "end") by discriminate.
  assert (Hi : outcome (CustomNotebook.index (TidStr "b"))
                       Sample.notebook_ABC = Py.Return 1%Z)
    by (vm_compute; reflexivity).
  destruct (@index_finds_first_match Sample.notebook_ABC (TidStr "b") 1%Z
              Hid Hi) as (_ & page & Hpage & Hm & _).
  exists page. now split.
Defined.

(** X6.  [insert] keeps the order of the pages that were there.  When the
    position is accepted by [list.insert] and [k] is the insertion point
    ([len] for ["end"]; for an [int] that fits a [Py_ssize_t] the position
    counted from the end if negative and clamped into [0 .. len]), afterwards
    [winfo_children()] is the old list with [child] put in at [k], [tabs()]
    is the old list of names with the name of [child] put in at [k], and
    there is one page more. *)
Theorem insert_keeps_order
    (nb : Notebook) (pos : position) (child : Widget) (text : string)
    (k : nat)
    (Hk : insertion_index pos (length (CustomNotebook.pages nb)) = Some k) :
  let nb' := run (CustomNotebook.insert pos child text) nb in
  forall children names,
    outcome CustomNotebook.winfo_children nb = Py.Return children ->
    outcome CustomNotebook.tabs nb = Py.Return names ->
    k <= length children
    /\ outcome CustomNotebook.winfo_children nb'
       = Py.Return (firstn k children ++ child :: skipn k children)
    /\ outcome CustomNotebook.tabs nb'
       = Py.Return (firstn k names ++ winfo_name child :: skipn k names)
    /\ length (CustomNotebook.pages nb')
       = S (length (CustomNotebook.pages nb)).
Proof.
  cbv zeta. intros children names [= <-] [= <-].
  pose proof (pages_after_insert pos child text nb) as Hps.
  rewrite Hk in Hps.
  pose proof (insertion_index_le _ _ Hk) as Hle.
  unfold outcome, CustomNotebook.winfo_children, CustomNotebook.tabs,
    CustomNotebook.bind, CustomNotebook.get_pages, CustomNotebook.ret.
  cbn [fst]. rewrite Hps, !map_app, !firstn_map, !skipn_map.
  cbn [map CustomNotebookPage.content].
  rewrite length_map.
  repeat split; try assumption.
  rewrite length_app. cbn [length].
  rewrite length_firstn, length_skipn. lia.
Qed.

Lemma insert_keeps_order_witness :
  outcome CustomNotebook.winfo_children
          (run (CustomNotebook.insert (PosInt 1) Sample.X "x")
               Sample.notebook_ABC)
  = Py.Return [Sample.A; Sample.X; Sample.B; Sample.C].
Proof.
  assert (Hk : insertion_index (PosInt 1)
                 (length (CustomNotebook.pages Sample.notebook_ABC))
               = Some 1) by (vm_compute; reflexivity).
  assert (Hc : outcome CustomNotebook.winfo_children Sample.notebook_ABC
               = Py.Return [Sample.A; Sample.B; Sample.C])
    by (vm_compute; reflexivity).
  assert (Hn : outcome CustomNotebook.tabs Sample.notebook_ABC
               = Py.Return ["a"; "b"; "c"]%string)
    by (vm_compute; reflexivity).
  destruct (@insert_keeps_order Sample.notebook_ABC (PosInt 1) Sample.X
              "x"%string 1 Hk [Sample.A; Sample.B; Sample.C]
              ["a"; "b"; "c"]%string Hc Hn) as (_ & H & _).
  exact H.
Defined.

(** X7.  Insert, then look up.  When [child] is the content of no page and
    the position is accepted by [list.insert], with insertion point [k],
    after [insert(pos, child, text)] the call [index(child)] returns [k] and
    [get_child_by_index(k)] returns [child]. *)
Theorem insert_then_index
    (nb : Notebook) (pos : position) (child : Widget) (text : string)
    (k : nat)
    (Hk : insertion_index pos (length (CustomNotebook.pages nb)) = Some k)
    (Hnew : forall p, In p (CustomNotebook.pages nb) ->
                      widget_is (CustomNotebookPage.content p) child = false) :
  let nb' := run (CustomNotebook.insert pos child text) nb in
  outcome (CustomNotebook.index (TidWidget child)) nb'
  = Py.Return (Z.of_nat k)
  /\ outcome (CustomNotebook.get_child_by_index (Z.of_nat k)) nb'
     = Py.Return child.
Proof.
  cbv zeta.
  pose proof (pages_after_insert pos child text nb) as Hps.
  rewrite Hk in Hps.
  pose proof (insertion_index_le _ _ Hk) as Hle.
  assert (Hlen : length (firstn k (CustomNotebook.pages nb)) = k)
    by now apply firstn_length_le.
  pose proof (nth_error_middle
                (firstn k (CustomNotebook.pages nb))
                (skipn k (CustomNotebook.pages nb))
                (CustomNotebookPage.mk (S (CustomNotebook.next_object nb))
                                       (CustomNotebook.next_object nb) child))
    as Hnth.
  rewrite Hlen in Hnth.
  unfold outcome. rewrite index_eq, get_child_by_index_eq, Hps.
  cbn [CustomNotebook.is_end].
  rewrite (first_index_middle (CustomNotebook.matches (TidWidget child))).
  - rewrite Hlen, getitem_of_nat, Hnth. now split.
  - intros y Hy. apply Hnew. eapply In_firstn_In; eauto.
  - apply widget_is_refl.
Qed.

Lemma insert_then_index_witness :
  outcome (CustomNotebook.index (TidWidget Sample.X))
          (run (CustomNotebook.insert (PosInt (-1)) Sample.X "x")
               Sample.notebook_ABC)
  = Py.Return 2%Z.
Proof.
  assert (Hk : insertion_index (PosInt (-1))
                 (length (CustomNotebook.pages Sample.notebook_ABC))
               = Some 2) by (vm_compute; reflexivity).
  assert (Hnew : forall p,
             In p (CustomNotebook.pages Sample.notebook_ABC) ->
             widget_is (CustomNotebookPage.content p) Sample.X = false).
  { change (CustomNotebook.pages Sample.notebook_ABC)
      with [Sample.page_A; Sample.page_B; Sample.page_C].
    intros p [<-|[<-|[<-|[]]]]; reflexivity. }
  destruct (@insert_then_index Sample.notebook_ABC (PosInt (-1)) Sample.X
              "x"%string 2 Hk Hnew) as (H & _).
  exact H.
Defined.

(** ** Adding a page and forgetting it again *)

Section AddForget.

Import CustomNotebook.

Lemma getitem_minus_one {A} (l : list A) :
  Py.getitem l (-1) = hd_error (rev l).
Proof.
  induction l as [|a l _] using rev_ind; [reflexivity|].
  rewrite rev_app_distr. cbn [rev app hd_error].
  unfold Py.getitem, Py.normalize_index.
  rewrite length_app. cbn [length andb Z.leb Z.compare].
  replace (- Z.of_nat (length l + 1) <=? -1)%Z with true
    by (symmetry; apply Z.leb_le; lia).
  cbn [andb Z.ltb Z.compare].
  replace (Z.to_nat (Z.of_nat (length l + 1) + -1)) with (length l) by lia.
  apply nth_error_middle.
Qed.

Lemma page_after_removal_of_last ps :
  page_after_removal ps (length ps) = last_page ps.
Proof.
  unfold page_after_removal, last_page.
  destruct ps as [|p0 ps0]; [reflexivity|].
  rewrite Nat.ltb_irrefl. apply getitem_minus_one.
Qed.

End AddForget.

(** X8.  Add, then forget.  When [x] is the content of no page,
    [add(x, t)] followed by [forget(x)] returns and gives back the page list
    there was; the current page, however, is then the last page of that list
    ([None] if it is empty), whichever page was current before. *)
Theorem add_then_forget
    (nb : Notebook) (x : Widget) (t : string)
    (Hnew : forall p, In p (CustomNotebook.pages nb) ->
                      widget_is x (CustomNotebookPage.content p) = false) :
  let nb1 := run (CustomNotebook.add x t) nb in
  let nb2 := run (CustomNotebook.forget x) nb1 in
  outcome (CustomNotebook.forget x) nb1 = Py.Return tt
  /\ CustomNotebook.pages nb2 = CustomNotebook.pages nb
  /\ CustomNotebook.current_page nb2 = last_page (CustomNotebook.pages nb).
Proof.
  cbv zeta.
  set (nb1 := run (CustomNotebook.add x t) nb).
  set (new := CustomNotebookPage.mk (S (CustomNotebook.next_object nb))
                                    (CustomNotebook.next_object nb) x).
  assert (Hps : CustomNotebook.pages nb1 = CustomNotebook.pages nb ++ [new])
    by apply add_pages.
  assert (Hi : Py.first_index
                 (fun page => widget_is x (CustomNotebookPage.content page))
                 (CustomNotebook.pages nb1)
               = Some (length (CustomNotebook.pages nb))).
  { rewrite Hps. apply first_index_middle; [assumption|].
    apply widget_is_refl. }
  destruct (forget_current_page x nb1 Hi) as [Hpages Hcur].
  rewrite Hpages, Hcur, Hps, del_middle, app_nil_r.
  split; [|split; [reflexivity | apply page_after_removal_of_last]].
  unfold outcome. now destruct (forget_found x nb1 Hi) as (page & _ & _ & ->).
Qed.

Lemma add_then_forget_witness :
  let nb2 := run (CustomNotebook.forget Sample.X)
                 (run (CustomNotebook.add Sample.X "x")
                      Sample.notebook_ABC_on_A) in
  CustomNotebook.pages nb2 = CustomNotebook.pages Sample.notebook_ABC_on_A
  /\ CustomNotebook.current_page nb2 = Some Sample.page_C.
Proof.
  cbv zeta.
  destruct (@add_then_forget Sample.notebook_ABC_on_A Sample.X "x"%string)
    as (_ & Hp & Hc).
  - change (CustomNotebook.pages Sample.notebook_ABC_on_A)
      with [Sample.page_A; Sample.page_B; Sample.page_C].
    intros p [<-|[<-|[<-|[]]]]; reflexivity.
  - split; [exact Hp | exact Hc].
Defined.

(** ** Pages never share a tab *)

Section DistinctPages.

Import CustomNotebook.

Lemma NoDup_map_del {A B} (f : A -> B) (l : list A) i :
  NoDup (map f l) -> NoDup (map f (Py.del l i)).
Proof.
  revert i. induction l as [|a l IH]; intros i H.
  - unfold Py.del. now destruct i.
  - cbn [map] in H. apply NoDup_cons_iff in H as [Ha Hl].
    destruct i as [|i]; [exact Hl|].
    change (Py.del (a :: l) (S i)) with (a :: Py.del l i).
    cbn [map]. constructor; [|now apply IH].
    intros Hin. apply Ha. apply in_map_iff in Hin as (y & <- & Hy).
    apply in_map. eapply In_del; eauto.
Qed.

Lemma NoDup_map_insert {A B} (f : A -> B) (l : list A) k x :
  NoDup (map f l) -> ~ In (f x) (map f l) ->
  NoDup (map f (firstn k l ++ x :: skipn k l)).
Proof.
  intros Hl Hx. rewrite map_app. cbn [map].
  apply (NoDup_Add (Add_app (f x) (map f (firstn k l)) (map f (skipn k l)))).
  rewrite <- map_app, firstn_skipn. now split.
Qed.

Lemma NoDup_map_injective {A B} (f : A -> B) (l : list A) x y :
  NoDup (map f l) -> In x l -> In y l -> f x = f y -> x = y.
Proof.
  induction l as [|a l IH]; intros H Hx Hy Hf; [destruct Hx|].
  cbn [map] in H. apply NoDup_cons_iff in H as [Ha Hl].
  destruct Hx as [->|Hx], Hy as [->|Hy]; try reflexivity.
  - destruct Ha. rewrite Hf. now apply in_map.
  - destruct Ha. rewrite <- Hf. now apply in_map.
  - now apply IH.
Qed.

Lemma select_by_index_pages i nb :
  pages (run (select_by_index i) nb) = pages nb.
Proof.
  destruct (select_by_index_unchanged_or_switched i nb)
    as [->|(_ & _ & H & _)]; [reflexivity | exact H].
Qed.

Lemma select_pages id nb : pages (run (select id) nb) = pages nb.
Proof.
  destruct (outcome (select id) nb) as [r|e] eqn:Eo.
  - destruct id as [|s|w].
    + unfold run. now rewrite select_eq.
    + destruct (outcome (index (TidStr s)) nb) as [i|e] eqn:Ei.
      * destruct (@select_as_select_by_index (TidStr s) i nb) as [_ ->];
          [discriminate | assumption | apply select_by_index_pages].
      * unfold outcome in *. rewrite select_eq in Eo.
        destruct (index (TidStr s) nb) as [[i|e'] nb']; cbn [fst] in *;
          discriminate.
    + destruct (outcome (index (TidWidget w)) nb) as [i|e] eqn:Ei.
      * destruct (@select_as_select_by_index (TidWidget w) i nb) as [_ ->];
          [discriminate | assumption | apply select_by_index_pages].
      * unfold outcome in *. rewrite select_eq in Eo.
        destruct (index (TidWidget w) nb) as [[i|e'] nb']; cbn [fst] in *;
          discriminate.
  - now destruct (@select_raises_only id nb e Eo) as [_ ->].
Qed.

(** Properties of the page list that deleting an element keeps are kept by
    [forget], [close_tab] and [close_tabs]. *)
Section Removals.

Variable Q : list Page -> Prop.
Hypothesis Q_del : forall ps i, Q ps -> Q (Py.del ps i).

Lemma forget_keeps child nb :
  Q (pages nb) -> Q (pages (run (forget child) nb)).
Proof.
  intros H.
  destruct (Py.first_index
              (fun page => widget_is child (CustomNotebookPage.content page))
              (pages nb)) as [i|] eqn:Ei.
  - destruct (forget_current_page child nb Ei) as [-> _]. now apply Q_del.
  - unfold run. now rewrite forget_not_found.
Qed.

Lemma close_tab_keeps t nb :
  Q (pages nb) -> Q (pages (run (close_tab t) nb)).
Proof.
  intros H. unfold run. rewrite close_tab_eq.
  destruct (find _ (pages nb)) as [page|]; [|assumption].
  now apply forget_keeps.
Qed.

Lemma close_tabs_from_keeps n except_tab nb :
  Q (pages nb) -> Q (pages (run (close_tabs_from n except_tab) nb)).
Proof.
  revert nb. induction n as [|position IH]; intros nb H; [assumption|].
  unfold run. rewrite close_tabs_from_S.
  destruct (nth_error (pages nb) position) as [page|]; [|assumption].
  destruct (is_except (CustomNotebookPage.tab page) except_tab).
  - now apply IH.
  - pose proof (close_tab_keeps (CustomNotebookPage.tab page) nb H) as H'.
    unfold run in H'.
    destruct (close_tab (CustomNotebookPage.tab page) nb) as [[[]|e] nb'];
      cbn [snd] in H'; [now apply IH | assumption].
Qed.

Lemma close_tabs_keeps except_tab nb :
  Q (pages nb) -> Q (pages (run (close_tabs except_tab) nb)).
Proof.
  intros H. unfold run, close_tabs. unfold bind at 1.
  unfold get_pages at 1. now apply close_tabs_from_keeps.
Qed.

End Removals.

Lemma distinct_del ps i :
  NoDup (map CustomNotebookPage.tab ps)
  /\ NoDup (map CustomNotebookPage.self ps) ->
  NoDup (map CustomNotebookPage.tab (Py.del ps i))
  /\ NoDup (map CustomNotebookPage.self (Py.del ps i)).
Proof. intros [H1 H2]. split; now apply NoDup_map_del. Qed.

Lemma insert_distinct_pages pos child text nb :
  allocated nb -> distinct_pages nb ->
  distinct_pages (run (insert pos child text) nb).
Proof.
  intros Halloc [Htabs Hselfs]. unfold distinct_pages.
  rewrite pages_after_insert.
  destruct (insertion_index pos (length (pages nb))) as [k|];
    [|now split].
  split; apply NoDup_map_insert; try assumption; cbn.
  - intros Hin. apply in_map_iff in Hin as (p & Hp & Hin).
    destruct (Halloc p (or_introl Hin)) as [_ Ht]. lia.
  - intros Hin. apply in_map_iff in Hin as (p & Hp & Hin).
    destruct (Halloc p (or_introl Hin)) as [Hs _]. lia.
Qed.

Lemma perform_distinct_pages o nb :
  allocated nb -> distinct_pages nb -> distinct_pages (perform o nb).
Proof.
  intros Halloc H. destruct o; cbn [perform]; unfold distinct_pages.
  - now apply insert_distinct_pages.
  - now apply insert_distinct_pages.
  - now apply (forget_keeps _ distinct_del).
  - now rewrite select_pages.
  - now rewrite select_by_index_pages.
  - now rewrite select_tab_pages.
  - now apply (close_tab_keeps _ distinct_del).
  - now apply (close_tabs_keeps _ distinct_del).
Qed.

Lemma perform_well_formed o nb : well_formed nb -> well_formed (perform o nb).
Proof.
  intros (Hd & Ha & Hi). split; [|split].
  - now apply perform_distinct_pages.
  - now apply perform_allocated.
  - now apply perform_invariant.
Qed.

Lemma init_well_formed closable : well_formed (__init__ closable).
Proof.
  split; [split; constructor|].
  split; [apply (@init_allocated closable) | apply init_invariant].
Qed.

Lemma states_after_well_formed ops nb :
  well_formed nb -> Forall well_formed (states_after ops nb).
Proof.
  revert nb. induction ops as [|o ops IH]; intros nb H; cbn [states_after];
    constructor.
  - now apply perform_well_formed.
  - apply IH. now apply perform_well_formed.
Qed.

End DistinctPages.

(** X9.  Whatever sequence of public operations is applied to a freshly
    constructed notebook, after each of them no two pages share a tab, no
    page object occurs twice in the page list, and every tab and page in the
    notebook is older than the next object [insert] will create. *)
Theorem pages_never_share_a_tab (closable : bool) (ops : list operation) :
  Forall
    (fun nb =>
       NoDup (map CustomNotebookPage.tab (CustomNotebook.pages nb))
       /\ NoDup (map CustomNotebookPage.self (CustomNotebook.pages nb))
       /\ forall p, In p (CustomNotebook.pages nb) ->
                    CustomNotebookPage.tab p < CustomNotebook.next_object nb
                    /\ CustomNotebookPage.self p
                       < CustomNotebook.next_object nb)
    (states_after ops (CustomNotebook.__init__ closable)).
Proof.
  eapply Forall_impl;
    [|apply (states_after_well_formed ops (init_well_formed closable))].
  intros nb ([Ht Hs] & Ha & _).
  split; [assumption|]. split; [assumption|].
  intros p Hp. destruct (Ha p (or_introl Hp)). now split.
Qed.

(** ** The tab callbacks *)

Section Callbacks.

Import CustomNotebook.

Lemma sample_well_formed : well_formed Sample.notebook_ABC.
Proof.
  unfold Sample.notebook_ABC, Sample.notebook_AB, Sample.notebook_A,
    Sample.empty.
  repeat apply perform_well_formed. apply init_well_formed.
Qed.

Lemma sample_distinct_contents : distinct_contents Sample.notebook_ABC.
Proof.
  unfold distinct_contents.
  change (pages Sample.notebook_ABC)
    with [Sample.page_A; Sample.page_B; Sample.page_C].
  cbn. repeat constructor; cbn; lia.
Qed.

Lemma find_nothing {A} (f : A -> bool) (l : list A) :
  (forall y, In y l -> f y = false) -> find f l = None.
Proof.
  intros H. induction l as [|a l IH]; [reflexivity|].
  cbn [find]. rewrite (H a (or_introl eq_refl)). apply IH.
  intros y Hy. apply H. now right.
Qed.

Lemma filter_nothing {A} (f : A -> bool) (l : list A) :
  (forall y, In y l -> f y = false) -> filter f l = [].
Proof.
  intros H. induction l as [|a l IH]; [reflexivity|].
  cbn [filter]. rewrite (H a (or_introl eq_refl)). apply IH.
  intros y Hy. apply H. now right.
Qed.

Lemma other_tabs_differ l1 (p : Page) l2 :
  NoDup (map CustomNotebookPage.tab (l1 ++ p :: l2)) ->
  forall y, In y (l1 ++ l2) ->
            (CustomNotebookPage.tab y =? CustomNotebookPage.tab p) = false.
Proof.
  rewrite map_app. cbn [map]. intros H y Hy.
  apply NoDup_remove_2 in H. apply Nat.eqb_neq. intros Heq. apply H.
  rewrite <- map_app, <- Heq. now apply in_map.
Qed.

Lemma page_after_removal_middle l1 l2 :
  page_after_removal (l1 ++ l2) (length l1)
  = match l2 with
    | q :: _ => Some q
    | [] => last_page l1
    end.
Proof.
  destruct l2 as [|q l2].
  - rewrite app_nil_r. apply page_after_removal_of_last.
  - unfold page_after_removal.
    destruct (l1 ++ q :: l2) as [|p0 ps0] eqn:E.
    + now destruct l1.
    + rewrite <- E.
      replace (length l1 <? length (l1 ++ q :: l2)) with true
        by (symmetry; apply Nat.ltb_lt; rewrite length_app; cbn; lia).
      apply nth_error_middle.
Qed.

End Callbacks.

(** X10.  A click on the tab of a page ([on_click], i.e. [select_tab]) of a
    well-formed notebook returns and makes that page the current page; the
    page list is untouched; if the page was current already nothing at all
    changes, and if not, exactly one [<<NotebookTabChanged>>] is
    generated. *)
Theorem click_selects_the_page
    (nb : Notebook) (p : Page)
    (Hwf : well_formed nb) (Hin : In p (CustomNotebook.pages nb)) :
  let click := CustomNotebookTab.on_click (CustomNotebookPage.tab p) tt in
  outcome click nb = Py.Return tt
  /\ CustomNotebook.current_page (run click nb) = Some p
  /\ CustomNotebook.pages (run click nb) = CustomNotebook.pages nb
  /\ (CustomNotebook.current_page nb = Some p -> run click nb = nb)
  /\ (CustomNotebook.current_page nb <> Some p ->
      Tk.notifications (calls_since nb (run click nb)) = 1).
Proof.
  cbv zeta. destruct Hwf as ([Htabs Hselfs] & _ & [_ Hcur]).
  unfold CustomNotebookTab.on_click, outcome, run.
  rewrite select_tab_eq.
  destruct (first_index_exists
              (fun q => CustomNotebookPage.tab q =? CustomNotebookPage.tab p)
              (CustomNotebook.pages nb) p Hin (Nat.eqb_refl _))
    as (i & y & -> & Hy & Hf).
  apply Nat.eqb_eq in Hf.
  assert (y = p) as ->
    by apply (@NoDup_map_injective _ _ CustomNotebookPage.tab
                (CustomNotebook.pages nb) y p Htabs (nth_error_In _ _ Hy)
                Hin Hf).
  rewrite select_by_index_eq, getitem_of_nat, Hy.
  destruct (CustomNotebook.is_current p (CustomNotebook.current_page nb))
    eqn:Ecur.
  - destruct (CustomNotebook.current_page nb) as [q|] eqn:Eq;
      [|discriminate].
    assert (p = q) as <-.
    { apply (@NoDup_map_injective _ _ CustomNotebookPage.self
               (CustomNotebook.pages nb) p q Hselfs Hin (Hcur q eq_refl)).
      now apply Nat.eqb_eq. }
    cbn [fst snd]. repeat split; try assumption. congruence.
  - cbn [fst snd CustomNotebook.pages CustomNotebook.current_page].
    rewrite calls_since_app, notifications_switch_calls.
    repeat split.
    intros Hp. rewrite Hp in Ecur. cbn in Ecur.
    unfold CustomNotebookPage.eq in Ecur. now rewrite Nat.eqb_refl in Ecur.
Qed.

Lemma click_selects_the_page_witness :
  CustomNotebook.current_page
    (run (CustomNotebookTab.on_click 2 tt) Sample.notebook_ABC)
  = Some Sample.page_B.
Proof.
  assert (Hin : In Sample.page_B (CustomNotebook.pages Sample.notebook_ABC)).
  { change (CustomNotebook.pages Sample.notebook_ABC)
      with [Sample.page_A; Sample.page_B; Sample.page_C].
    right. now left. }
  destruct (@click_selects_the_page Sample.notebook_ABC Sample.page_B
              sample_well_formed Hin) as (_ & H & _).
  exact H.
Defined.

(** X11.  The close button and the middle mouse button ([on_button_click],
    [_middle_btn_press], both [close_tab]) on the tab of a page return on
    every notebook that holds the page, take exactly one page out, add none,
    and generate no event. *)
Theorem close_button_removes_one_page
    (nb : Notebook) (p : Page) (Hin : In p (CustomNotebook.pages nb)) :
  let close :=
    CustomNotebookTab.on_button_click (CustomNotebookPage.tab p) tt in
  outcome close nb = Py.Return tt
  /\ run (CustomNotebookTab._middle_btn_press (CustomNotebookPage.tab p) tt)
         nb = run close nb
  /\ S (length (CustomNotebook.pages (run close nb)))
     = length (CustomNotebook.pages nb)
  /\ (forall q, In q (CustomNotebook.pages (run close nb)) ->
                In q (CustomNotebook.pages nb))
  /\ Tk.notifications (calls_since nb (run close nb)) = 0.
Proof.
  cbv zeta.
  unfold CustomNotebookTab.on_button_click, CustomNotebookTab._middle_btn_press,
    CustomNotebookTab._close_tab, outcome, run.
  destruct (@close_tab_present (CustomNotebookPage.tab p) p nb Hin eq_refl)
    as (i & x & Hx & ->).
  cbn [fst snd CustomNotebook.pages]. rewrite calls_since_app.
  split; [reflexivity|]. split; [reflexivity|].
  split; [now apply length_del with x|].
  split; [intros q; apply In_del|].
  apply (notifications_grid_calls (Py.del (CustomNotebook.pages nb) i)).
Qed.

Lemma close_button_removes_one_page_witness :
  S (length (CustomNotebook.pages
               (run (CustomNotebookTab.on_button_click 2 tt)
                    Sample.notebook_ABC)))
  = length (CustomNotebook.pages Sample.notebook_ABC).
Proof.
  assert (Hin : In Sample.page_B (CustomNotebook.pages Sample.notebook_ABC)).
  { change (CustomNotebook.pages Sample.notebook_ABC)
      with [Sample.page_A; Sample.page_B; Sample.page_C].
    right. now left. }
  destruct (@close_button_removes_one_page Sample.notebook_ABC Sample.page_B
              Hin) as (_ & _ & H & _).
  exact H.
Defined.

(** X12.  On a notebook whose pages have pairwise different tabs and
    contents, the close button on the tab of page [p] takes out [p] and
    nothing else; the page that followed [p] becomes current, or, when [p]
    was the last one, the page before it, or [None]; and a second close on
    the same tab raises [ValueError] and changes nothing. *)
Theorem close_button_removes_its_page
    (nb : Notebook) (l1 : list Page) (p : Page) (l2 : list Page)
    (Hps : CustomNotebook.pages nb = l1 ++ p :: l2)
    (Hd : distinct_pages nb) (Hc : distinct_contents nb) :
  let close :=
    CustomNotebookTab.on_button_click (CustomNotebookPage.tab p) tt in
  CustomNotebook.pages (run close nb) = l1 ++ l2
  /\ CustomNotebook.current_page (run close nb)
     = match l2 with
       | q :: _ => Some q
       | [] => last_page l1
       end
  /\ close (run close nb) = (Py.Raise Py.ValueError, run close nb).
Proof.
  cbv zeta. destruct Hd as [Htabs _].
  unfold distinct_contents in Hc. rewrite Hps in Htabs, Hc.
  unfold CustomNotebookTab.on_button_click, run.
  rewrite (close_tab_member nb l1 p l2 Hps Htabs Hc). cbn [snd].
  cbn [CustomNotebook.pages CustomNotebook.current_page].
  split; [reflexivity|]. split; [apply page_after_removal_middle|].
  rewrite close_tab_eq. cbn [CustomNotebook.pages].
  rewrite find_nothing; [reflexivity|].
  now apply other_tabs_differ.
Qed.

Lemma close_button_removes_its_page_witness :
  CustomNotebook.pages
    (run (CustomNotebookTab.on_button_click 2 tt) Sample.notebook_ABC)
  = [Sample.page_A; Sample.page_C]
  /\ CustomNotebook.current_page
       (run (CustomNotebookTab.on_button_click 2 tt) Sample.notebook_ABC)
     = Some Sample.page_C.
Proof.
  destruct (@close_button_removes_its_page Sample.notebook_ABC
              [Sample.page_A] Sample.page_B [Sample.page_C])
    as (H1 & H2 & _).
  - vm_compute. reflexivity.
  - exact (proj1 sample_well_formed).
  - exact sample_distinct_contents.
  - split; [exact H1 | exact H2].
Defined.

(** X13.  "Close others" on a well-formed notebook whose pages hold pairwise
    different contents, called from the tab of page [p]
    ([_close_other_tabs], i.e. [close_tabs(except_tab = p.tab)]): it
    returns; [p] is the only page left and is the current page; the other
    pages were forgotten from the last to the first. *)
Theorem close_others_leaves_that_page
    (nb : Notebook) (p : Page)
    (Hwf : well_formed nb) (Hc : distinct_contents nb)
    (Hin : In p (CustomNotebook.pages nb)) :
  let close := CustomNotebookTab._close_other_tabs (CustomNotebookPage.tab p) in
  outcome close nb = Py.Return tt
  /\ CustomNotebook.pages (run close nb) = [p]
  /\ CustomNotebook.current_page (run close nb) = Some p
  /\ Tk.forgotten (calls_since nb (run close nb))
     = rev (map CustomNotebookPage.content
                (filter (fun q => negb (CustomNotebookPage.tab q
                                        =? CustomNotebookPage.tab p))
                        (CustomNotebook.pages nb))).
Proof.
  cbv zeta. destruct Hwf as ([Htabs _] & _ & Hinv).
  unfold CustomNotebookTab._close_other_tabs.
  destruct (close_tabs_eq (Some (CustomNotebookPage.tab p)) nb Htabs Hc)
    as (Ho & Hp & Hf).
  cbn [CustomNotebook.is_except] in Hp, Hf.
  assert (Hone : filter (fun q => CustomNotebookPage.tab q
                                  =? CustomNotebookPage.tab p)
                        (CustomNotebook.pages nb) = [p]).
  { destruct (in_split _ _ Hin) as (l1 & l2 & Hsplit).
    rewrite Hsplit in Htabs |- *.
    pose proof (other_tabs_differ l1 p l2 Htabs) as Hother.
    rewrite filter_app. cbn [filter]. rewrite Nat.eqb_refl.
    rewrite !filter_nothing; [reflexivity| |].
    - intros y Hy. apply Hother. apply in_or_app. now right.
    - intros y Hy. apply Hother. apply in_or_app. now left. }
  rewrite Hone in Hp.
  split; [assumption|]. split; [assumption|]. split; [|assumption].
  pose proof (close_tabs_invariant (Some (CustomNotebookPage.tab p)) Hinv)
    as [Hnone Hcur].
  destruct (CustomNotebook.current_page
              (run (CustomNotebook.close_tabs
                      (Some (CustomNotebookPage.tab p))) nb))
    as [q|] eqn:Eq.
  - specialize (Hcur q eq_refl). rewrite Hp in Hcur.
    destruct Hcur as [<-|[]]. reflexivity.
  - destruct Hnone as [Hnone _]. specialize (Hnone eq_refl).
    rewrite Hp in Hnone. discriminate.
Qed.

Lemma close_others_leaves_that_page_witness :
  CustomNotebook.pages
    (run (CustomNotebookTab._close_other_tabs 0) Sample.notebook_ABC)
  = [Sample.page_A]
  /\ CustomNotebook.current_page
       (run (CustomNotebookTab._close_other_tabs 0) Sample.notebook_ABC)
     = Some Sample.page_A.
Proof.
  destruct (@close_others_leaves_that_page Sample.notebook_ABC Sample.page_A
              sample_well_formed sample_distinct_contents)
    as (_ & H1 & H2 & _).
  - change (CustomNotebook.pages Sample.notebook_ABC)
      with [Sample.page_A; Sample.page_B; Sample.page_C].
    now left.
  - split; [exact H1 | exact H2].
Defined.

(** ** Events and tab states *)

Section Events.

Import CustomNotebook.

Lemma notifications_app cs1 cs2 :
  Tk.notifications (cs1 ++ cs2) = Tk.notifications cs1 + Tk.notifications cs2.
Proof. unfold Tk.notifications. now rewrite filter_app, length_app. Qed.

Lemma tab_state_app log1 log2 t st :
  Tk.tab_state (log1 ++ log2) t st
  = Tk.tab_state log2 t (Tk.tab_state log1 t st).
Proof.
  revert st. induction log1 as [|c log1 IH]; intros st; [reflexivity|].
  destruct c; cbn [app Tk.tab_state]; apply IH.
Qed.

Lemma tab_state_no_update log t st :
  filter Tk.is_update_state log = [] -> Tk.tab_state log t st = st.
Proof.
  revert st. induction log as [|c log IH]; intros st H; [reflexivity|].
  destruct c; cbn [filter Tk.is_update_state Tk.tab_state] in *;
    try (now apply IH); discriminate.
Qed.

Lemma tab_state_switch_calls p cur t st :
  Tk.tab_state (switch_calls p cur) t st
  = match cur with
    | Some q =>
        if CustomNotebookPage.tab q =? t then Some false
        else if CustomNotebookPage.tab p =? t then Some true else st
    | None => if CustomNotebookPage.tab p =? t then Some true else st
    end.
Proof. destruct cur; reflexivity. Qed.

Lemma select_by_index_at_most_one i nb1 nb pre :
  tk_log nb1 = tk_log nb ++ pre -> Tk.notifications pre = 0 ->
  Tk.notifications (calls_since nb (run (select_by_index i) nb1)) <= 1.
Proof.
  intros Hlog Hpre. unfold run. rewrite select_by_index_eq.
  assert (Hsame : Tk.notifications (calls_since nb nb1) = 0).
  { unfold calls_since. rewrite Hlog, skipn_app, skipn_all, Nat.sub_diag.
    cbn [app skipn]. assumption. }
  destruct (Py.getitem (pages nb1) i) as [p|]; cbn [snd]; [|lia].
  destruct (is_current p (current_page nb1)); cbn [snd]; [lia|].
  rewrite Hlog, <- app_assoc, calls_since_app, notifications_app, Hpre,
    notifications_switch_calls. lia.
Qed.

Lemma select_tab_at_most_one t nb1 nb pre :
  tk_log nb1 = tk_log nb ++ pre -> Tk.notifications pre = 0 ->
  Tk.notifications (calls_since nb (run (select_tab t) nb1)) <= 1.
Proof.
  intros Hlog Hpre. unfold run. rewrite select_tab_eq.
  destruct (Py.first_index _ (pages nb1)) as [i|].
  - now apply select_by_index_at_most_one with pre.
  - cbn [snd]. unfold calls_since.
    rewrite Hlog, skipn_app, skipn_all, Nat.sub_diag. cbn [app skipn]. lia.
Qed.

Lemma select_run id nb :
  run (select id) nb = nb
  \/ exists i, run (select id) nb = run (select_by_index i) nb.
Proof.
  destruct (outcome (select id) nb) as [r|e] eqn:Eo.
  - destruct id as [|s|w].
    + left. unfold run. now rewrite select_eq.
    + destruct (outcome (index (TidStr s)) nb) as [i|e] eqn:Ei.
      * right. exists i.
        now destruct (@select_as_select_by_index (TidStr s) i nb) as [_ ->].
      * unfold outcome in *. rewrite select_eq in Eo.
        destruct (index (TidStr s) nb) as [[i|e'] nb']; cbn [fst] in *;
          discriminate.
    + destruct (outcome (index (TidWidget w)) nb) as [i|e] eqn:Ei.
      * right. exists i.
        now destruct (@select_as_select_by_index (TidWidget w) i nb)
          as [_ ->].
      * unfold outcome in *. rewrite select_eq in Eo.
        destruct (index (TidWidget w) nb) as [[i|e'] nb']; cbn [fst] in *;
          discriminate.
  - left. now destruct (@select_raises_only id nb e Eo) as [_ ->].
Qed.

Lemma insert_at_most_one pos child text nb :
  Tk.notifications (calls_since nb (run (insert pos child text) nb)) <= 1.
Proof.
  unfold run. rewrite insert_eq. cbv zeta.
  destruct (insertion_index pos (length (pages nb))) as [k|].
  - set (ps' := firstn k _ ++ _ :: skipn k _).
    apply (@select_tab_at_most_one (next_object nb)
             (mk (closable nb) ps' (current_page nb) (S (S (next_object nb)))
                 (tk_log nb
                  ++ Tk.NewTab (next_object nb) text (closable nb)
                  :: grid_calls ps'))
             nb (Tk.NewTab (next_object nb) text (closable nb)
                 :: grid_calls ps')).
    + reflexivity.
    + apply (notifications_grid_calls ps').
  - cbn [snd]. rewrite calls_since_app. cbn. lia.
Qed.

Lemma close_tab_makes_no_selection t nb :
  Tk.notifications (calls_since nb (run (close_tab t) nb)) = 0
  /\ filter Tk.is_update_state (calls_since nb (run (close_tab t) nb)) = [].
Proof.
  unfold run. rewrite close_tab_eq.
  destruct (find _ (pages nb)) as [page|].
  - apply forget_makes_no_selection.
  - cbn [snd]. now rewrite calls_since_same.
Qed.

Lemma close_tabs_makes_no_selection except_tab nb :
  Tk.notifications (calls_since nb (run (close_tabs except_tab) nb)) = 0
  /\ filter Tk.is_update_state
            (calls_since nb (run (close_tabs except_tab) nb)) = [].
Proof.
  unfold run, close_tabs, bind, get_pages.
  destruct (close_tabs_from_returns (length (pages nb)) except_tab nb)
    as (ps' & cur' & cs & -> & Hn & Hu).
  cbn [snd]. rewrite calls_since_app. now split.
Qed.

End Events.

(** X14.  A public operation generates at most one
    [<<NotebookTabChanged>>]; the operations that take pages out ([forget],
    [close_tab], [close_tabs]) generate none and never call [update_state]
    on a tab, also when the page they remove is the current one. *)
Theorem at_most_one_notification (nb : Notebook) (o : operation) :
  Tk.notifications (calls_since nb (perform o nb)) <= 1
  /\ (removes_pages o = true ->
      Tk.notifications (calls_since nb (perform o nb)) = 0
      /\ filter Tk.is_update_state (calls_since nb (perform o nb)) = []).
Proof.
  assert (Hnil : CustomNotebook.tk_log nb = CustomNotebook.tk_log nb ++ [])
    by now rewrite app_nil_r.
  destruct o; cbn [perform removes_pages].
  - split; [apply insert_at_most_one | discriminate].
  - split; [apply insert_at_most_one | discriminate].
  - destruct (forget_makes_no_selection child nb) as [H0 Hu].
    split; [lia | now split].
  - split; [|discriminate].
    destruct (select_run id nb) as [->|[i ->]].
    + rewrite calls_since_same. cbn. lia.
    + now apply select_by_index_at_most_one with [].
  - split; [|discriminate].
    now apply select_by_index_at_most_one with [].
  - split; [|discriminate].
    now apply select_tab_at_most_one with [].
  - destruct (close_tab_makes_no_selection tab nb) as [H0 Hu].
    split; [lia | now split].
  - destruct (close_tabs_makes_no_selection except_tab nb) as [H0 Hu].
    split; [lia | now split].
Qed.

(** X15.  On a notebook that respects the allocation discipline, [insert]
    at a position [list.insert] accepts (["end"], so every [add], or an
    [int] that fits a [Py_ssize_t]) generates exactly one
    [<<NotebookTabChanged>>], leaves the new tab in the active state and the
    tab of the page that was current, if any, in the inactive state. *)
Theorem insert_notifies_once
    (nb : Notebook) (pos : position) (child : Widget) (text : string)
    (Halloc : allocated nb) (Hpos : position_fits pos = true) :
  let nb' := run (CustomNotebook.insert pos child text) nb in
  Tk.notifications (calls_since nb nb') = 1
  /\ Tk.tab_state (CustomNotebook.tk_log nb') (CustomNotebook.next_object nb)
                  None = Some true
  /\ (forall q, CustomNotebook.current_page nb = Some q ->
                Tk.tab_state (CustomNotebook.tk_log nb')
                             (CustomNotebookPage.tab q) None = Some false).
Proof.
  cbv zeta. unfold run.
  destruct (insertion_index_of_fits pos (length (CustomNotebook.pages nb))
              Hpos) as [k Hk].
  rewrite (insert_allocated_eq pos child text Halloc Hk). cbv zeta.
  set (page := CustomNotebookPage.mk _ _ child).
  set (ps' := firstn k _ ++ page :: skipn k _).
  cbn [snd CustomNotebook.tk_log]. rewrite calls_since_app.
  change (Tk.NewTab (CustomNotebook.next_object nb) text
                    (CustomNotebook.closable nb)
          :: grid_calls ps'
             ++ switch_calls page (CustomNotebook.current_page nb))
    with ((Tk.NewTab (CustomNotebook.next_object nb) text
                     (CustomNotebook.closable nb) :: grid_calls ps')
          ++ switch_calls page (CustomNotebook.current_page nb)).
  assert (Hpre : filter Tk.is_update_state
                   (Tk.NewTab (CustomNotebook.next_object nb) text
                              (CustomNotebook.closable nb) :: grid_calls ps')
                 = [])
    by apply (update_state_grid_calls ps').
  split; [|split].
  - rewrite notifications_app, notifications_switch_calls.
    change (Tk.notifications (Tk.NewTab _ _ _ :: grid_calls ps'))
      with (Tk.notifications (grid_calls ps')).
    now rewrite notifications_grid_calls.
  - rewrite !tab_state_app, (tab_state_no_update _ _ _ Hpre),
      tab_state_switch_calls.
    destruct (CustomNotebook.current_page nb) as [q|] eqn:Eq.
    + destruct (Halloc q (or_intror Eq)) as [_ Hq].
      replace (CustomNotebookPage.tab q =? CustomNotebook.next_object nb)
        with false by (symmetry; apply Nat.eqb_neq; lia).
      subst page. cbn [CustomNotebookPage.tab]. now rewrite Nat.eqb_refl.
    + subst page. cbn [CustomNotebookPage.tab]. now rewrite Nat.eqb_refl.
  - intros q Hq.
    rewrite !tab_state_app, (tab_state_no_update _ _ _ Hpre),
      tab_state_switch_calls, Hq.
    now rewrite Nat.eqb_refl.
Qed.

Lemma insert_notifies_once_witness :
  Tk.notifications
    (calls_since Sample.notebook_ABC
       (run (CustomNotebook.insert (PosInt 0) Sample.X "x")
            Sample.notebook_ABC)) = 1.
Proof.
  assert (Hpos : position_fits (PosInt 0) = true) by (vm_compute; reflexivity).
  destruct (@insert_notifies_once Sample.notebook_ABC (PosInt 0) Sample.X
              "x"%string sample_allocated Hpos) as (H & _).
  exact H.
Defined.

(** ** The active tab *)

Section ActiveTab.

Import CustomNotebook.

Lemma active_after_switch nb p pre c ps n :
  active_tab_is_current nb ->
  (forall q, current_page nb = Some q ->
             CustomNotebookPage.tab q <> CustomNotebookPage.tab p) ->
  filter Tk.is_update_state pre = [] ->
  active_tab_is_current
    (mk c ps (Some p) n
        (tk_log nb ++ pre ++ switch_calls p (current_page nb))).
Proof.
  intros Hact Hneq Hpre t. cbn [tk_log current_page].
  rewrite !tab_state_app, (tab_state_no_update _ _ _ Hpre),
    tab_state_switch_calls.
  specialize (Hact t).
  destruct (current_page nb) as [q|].
  - specialize (Hneq q eq_refl).
    destruct (Nat.eqb_spec (CustomNotebookPage.tab q) t) as [Eq|Eq].
    + split; [discriminate|]. intros (p' & [= <-] & Hp'). congruence.
    + destruct (Nat.eqb_spec (CustomNotebookPage.tab p) t) as [Ep|Ep].
      * split; [|reflexivity]. intros _. now exists p.
      * split.
        -- intros H. apply Hact in H as (q' & [= <-] & Hq'). congruence.
        -- intros (p' & [= <-] & Hp'). congruence.
  - destruct (Nat.eqb_spec (CustomNotebookPage.tab p) t) as [Ep|Ep].
    + split; [|reflexivity]. intros _. now exists p.
    + split.
      * intros H. apply Hact in H as (q' & Hq' & _). discriminate.
      * intros (p' & [= <-] & Hp'). congruence.
Qed.

Lemma select_by_index_active i nb :
  well_formed nb -> active_tab_is_current nb ->
  active_tab_is_current (run (select_by_index i) nb).
Proof.
  intros ([Htabs _] & _ & [_ Hcur]) Hact. unfold run.
  rewrite select_by_index_eq.
  destruct (Py.getitem (pages nb) i) as [p|] eqn:Ep; [|assumption].
  destruct (is_current p (current_page nb)) eqn:Ecur; [assumption|].
  cbn [snd].
  apply (@active_after_switch nb p [] (closable nb) (pages nb)
           (next_object nb) Hact); [|reflexivity].
  intros q Hq Heq. rewrite Hq in Ecur. cbn in Ecur.
  assert (q = p) as ->
    by apply (@NoDup_map_injective _ _ CustomNotebookPage.tab (pages nb)
                q p Htabs (Hcur q Hq) (getitem_In _ _ Ep) Heq).
  unfold CustomNotebookPage.eq in Ecur. now rewrite Nat.eqb_refl in Ecur.
Qed.

Lemma select_tab_active t nb :
  well_formed nb -> active_tab_is_current nb ->
  active_tab_is_current (run (select_tab t) nb).
Proof.
  intros Hwf Hact. unfold run. rewrite select_tab_eq.
  destruct (Py.first_index _ (pages nb)) as [i|]; [|assumption].
  now apply select_by_index_active.
Qed.

Lemma select_active id nb :
  well_formed nb -> active_tab_is_current nb ->
  active_tab_is_current (run (select id) nb).
Proof.
  intros Hwf Hact.
  destruct (select_run id nb) as [->|[i ->]]; [assumption|].
  now apply select_by_index_active.
Qed.

Lemma insert_active pos child text nb :
  well_formed nb -> active_tab_is_current nb ->
  active_tab_is_current (run (insert pos child text) nb).
Proof.
  intros (_ & Halloc & _) Hact. unfold run.
  destruct (insertion_index pos (length (pages nb))) as [k|] eqn:Hk.
  2:{ rewrite (insert_overflow pos child text nb Hk). cbn [snd].
      intros t. cbn [tk_log current_page].
      rewrite tab_state_app. apply Hact. }
  rewrite (insert_allocated_eq pos child text Halloc Hk). cbv zeta. cbn [snd].
  set (page := CustomNotebookPage.mk _ _ child).
  set (ps' := firstn k _ ++ page :: skipn k _).
  apply (@active_after_switch nb page
           (Tk.NewTab (next_object nb) text (closable nb) :: grid_calls ps')
           (closable nb) ps' (S (S (next_object nb))) Hact).
  - intros q Hq. destruct (Halloc q (or_intror Hq)) as [_ Ht].
    subst page. cbn [CustomNotebookPage.tab]. lia.
  - apply (update_state_grid_calls ps').
Qed.

Lemma perform_active o nb :
  removes_pages o = false ->
  well_formed nb -> active_tab_is_current nb ->
  active_tab_is_current (perform o nb).
Proof.
  intros Ho Hwf Hact. destruct o; cbn [perform]; try discriminate Ho.
  - now apply insert_active.
  - now apply insert_active.
  - now apply select_active.
  - now apply select_by_index_active.
  - now apply select_tab_active.
Qed.

Lemma init_active closable : active_tab_is_current (__init__ closable).
Proof.
  intros t. cbn. split; [discriminate|]. intros (p & Hp & _). discriminate.
Qed.

Lemma states_after_active ops nb :
  forallb (fun o => negb (removes_pages o)) ops = true ->
  well_formed nb -> active_tab_is_current nb ->
  Forall active_tab_is_current (states_after ops nb).
Proof.
  revert nb. induction ops as [|o ops IH]; intros nb Hops Hwf Hact;
    cbn [states_after]; constructor;
    cbn [forallb] in Hops; apply andb_prop in Hops as [Ho Hops];
    apply negb_true_iff in Ho.
  - now apply perform_active.
  - apply IH; [assumption | now apply perform_well_formed |
               now apply perform_active].
Qed.

End ActiveTab.

(** X16.  As long as no page is taken out (only [add], [insert], [select],
    [select_by_index], [select_tab] are used on a freshly constructed
    notebook), after each operation the tabs whose last [update_state] was
    [update_state(True)] are exactly the tab of the current page: one tab is
    drawn active, and it is the current page's. *)
Theorem active_tab_is_current_without_removals
    (closable : bool) (ops : list operation)
    (Hops : forallb (fun o => negb (removes_pages o)) ops = true) :
  Forall
    (fun nb =>
       forall t,
         Tk.tab_state (CustomNotebook.tk_log nb) t None = Some true
         <-> exists p, CustomNotebook.current_page nb = Some p
                       /\ CustomNotebookPage.tab p = t)
    (states_after ops (CustomNotebook.__init__ closable)).
Proof.
  apply (states_after_active ops Hops (init_well_formed closable)
           (init_active closable)).
Qed.

Lemma active_tab_is_current_without_removals_witness :
  Forall
    (fun nb =>
       forall t,
         Tk.tab_state (CustomNotebook.tk_log nb) t None = Some true
         <-> exists p, CustomNotebook.current_page nb = Some p
                       /\ CustomNotebookPage.tab p = t)
    (states_after [Add Sample.A "A"; Add Sample.B "B"; SelectByIndex 0;
                   Insert (PosInt (-1)) Sample.C "C"; Select (TidStr "b")]
                  (CustomNotebook.__init__ true)).
Proof.
  apply (@active_tab_is_current_without_removals true
           [Add Sample.A "A"; Add Sample.B "B"; SelectByIndex 0;
            Insert (PosInt (-1)) Sample.C "C"; Select (TidStr "b")]).
  reflexivity.
Defined.

(** ** Queries *)

(** X17.  On a notebook that satisfies the current-page invariant the
    queries agree with the page list and change nothing: [select()] returns
    [None] exactly when [tabs()] is empty and otherwise one of the names in
    [tabs()]; [get_current_child()] returns [None] exactly when
    [winfo_children()] is empty and otherwise one of its elements;
    [focus_set()] gives the focus to the notebook frame itself exactly when
    there is no page. *)
Theorem queries_agree_with_pages
    (nb : Notebook) (Hinv : current_page_invariant nb) :
  (outcome (CustomNotebook.select TidNone) nb = Py.Return None
   <-> outcome CustomNotebook.tabs nb = Py.Return [])
  /\ (forall name,
        outcome (CustomNotebook.select TidNone) nb = Py.Return (Some name) ->
        exists names, outcome CustomNotebook.tabs nb = Py.Return names
                      /\ In name names)
  /\ (outcome CustomNotebook.get_current_child nb = Py.Return None
      <-> outcome CustomNotebook.winfo_children nb = Py.Return [])
  /\ (forall w,
        outcome CustomNotebook.get_current_child nb = Py.Return (Some w) ->
        exists ws, outcome CustomNotebook.winfo_children nb = Py.Return ws
                   /\ In w ws)
  /\ (calls_since nb (run CustomNotebook.focus_set nb) = [Tk.FrameFocusSet]
      <-> CustomNotebook.pages nb = [])
  /\ run (CustomNotebook.select TidNone) nb = nb
  /\ run CustomNotebook.tabs nb = nb
  /\ run CustomNotebook.winfo_children nb = nb
  /\ run CustomNotebook.get_current_child nb = nb.
Proof.
  destruct Hinv as [Hnone Hcur].
  unfold outcome, run. rewrite select_eq.
  unfold CustomNotebook.tabs, CustomNotebook.winfo_children,
    CustomNotebook.get_current_child, CustomNotebook.focus_set,
    CustomNotebook.bind, CustomNotebook.get_pages,
    CustomNotebook.get_current_page, CustomNotebook.ret.
  destruct (CustomNotebook.current_page nb) as [p|] eqn:Ep.
  - specialize (Hcur p eq_refl).
    assert (Hne : CustomNotebook.pages nb <> [])
      by (intros E; rewrite E in Hcur; destruct Hcur).
    unfold CustomNotebook.tk. cbn [fst snd option_map].
    rewrite calls_since_app.
    split; [split; [discriminate|]|].
    { intros [= E]. apply map_eq_nil in E. contradiction. }
    split.
    { intros name [= <-]. eexists. split; [reflexivity|].
      apply (in_map (fun q => winfo_name (CustomNotebookPage.content q))).
      assumption. }
    split; [split; [discriminate|]|].
    { intros [= E]. apply map_eq_nil in E. contradiction. }
    split.
    { intros w [= <-]. eexists. split; [reflexivity|].
      now apply in_map. }
    split; [split; [discriminate | contradiction]|].
    now repeat split.
  - destruct Hnone as [Hnone _]. specialize (Hnone eq_refl).
    unfold CustomNotebook.tk. cbn [fst snd option_map].
    rewrite calls_since_app, Hnone. cbn [map].
    split; [tauto|]. split; [discriminate|].
    split; [tauto|]. split; [discriminate|].
    split; [tauto|]. now repeat split.
Qed.

Lemma queries_agree_with_pages_witness :
  exists names,
    outcome CustomNotebook.tabs Sample.notebook_ABC = Py.Return names
    /\ In "c"%string names.
Proof.
  assert (Hinv : current_page_invariant Sample.notebook_ABC)
    by exact (proj2 (proj2 sample_well_formed)).
  destruct (@queries_agree_with_pages Sample.notebook_ABC Hinv)
    as (_ & H & _).
  apply H. vm_compute. reflexivity.
Defined.

(** ** Negative subscripts *)

(** X18.  A negative index in [-len(pages), 0)] given to [select_by_index]
    or [get_child_by_index] denotes the page at index [len(pages) + index]:
    the two calls do the same. *)
Theorem negative_index_counts_from_end
    (nb : Notebook) (i : Z)
    (Hi : (- Z.of_nat (length (CustomNotebook.pages nb)) <= i < 0)%Z) :
  let j := (Z.of_nat (length (CustomNotebook.pages nb)) + i)%Z in
  (0 <= j < Z.of_nat (length (CustomNotebook.pages nb)))%Z
  /\ CustomNotebook.select_by_index i nb = CustomNotebook.select_by_index j nb
  /\ CustomNotebook.get_child_by_index i nb
     = CustomNotebook.get_child_by_index j nb.
Proof.
  cbv zeta.
  assert (Hget : Py.getitem (CustomNotebook.pages nb) i
                 = Py.getitem (CustomNotebook.pages nb)
                     (Z.of_nat (length (CustomNotebook.pages nb)) + i)).
  { unfold Py.getitem, Py.normalize_index.
    replace (0 <=? i)%Z with false by (symmetry; apply Z.leb_gt; lia).
    replace (- Z.of_nat (length (CustomNotebook.pages nb)) <=? i)%Z
      with true by (symmetry; apply Z.leb_le; lia).
    replace (i <? 0)%Z with true by (symmetry; apply Z.ltb_lt; lia).
    replace (0 <=? Z.of_nat (length (CustomNotebook.pages nb)) + i)%Z
      with true by (symmetry; apply Z.leb_le; lia).
    replace (Z.of_nat (length (CustomNotebook.pages nb)) + i
             <? Z.of_nat (length (CustomNotebook.pages nb)))%Z
      with true by (symmetry; apply Z.ltb_lt; lia).
    reflexivity. }
  split; [lia|].
  now rewrite !select_by_index_eq, !get_child_by_index_eq, Hget.
Qed.

Lemma negative_index_counts_from_end_witness :
  CustomNotebook.select_by_index (-1) Sample.notebook_ABC_on_A
  = CustomNotebook.select_by_index 2 Sample.notebook_ABC_on_A.
Proof.
  destruct (@negative_index_counts_from_end Sample.notebook_ABC_on_A (-1)%Z)
    as (_ & H & _).
  - vm_compute. split; [discriminate | reflexivity].
  - exact H.
Defined.

(** ** Titles at insertion *)

Section InsertTitle.

Import CustomNotebook.

Lemma label_text_app log1 log2 t shown :
  Tk.label_text (log1 ++ log2) t shown
  = Tk.label_text log2 t (Tk.label_text log1 t shown).
Proof.
  revert shown. induction log1 as [|c log1 IH]; intros shown; [reflexivity|].
  destruct c; cbn [app Tk.label_text]; apply IH.
Qed.

Lemma label_text_grid_calls ps t shown :
  Tk.label_text (grid_calls ps) t shown = shown.
Proof.
  unfold grid_calls. induction (Py.enumerate ps) as [|ip l IH];
    [reflexivity | exact IH].
Qed.

Lemma label_text_switch_calls p cur t shown :
  Tk.label_text (switch_calls p cur) t shown = shown.
Proof. destruct cur; reflexivity. Qed.

End InsertTitle.

(** X19.  On a notebook that respects the allocation discipline, after
    [insert(pos, child, text)] at a position [list.insert] accepts (["end"]
    or an [int] that fits a [Py_ssize_t]) the label of the new tab shows
    [text], the label of every other tab shows what it showed before, and
    the current page is the new page, which holds [child]. *)
Theorem insert_shows_title
    (nb : Notebook) (pos : position) (child : Widget) (text : string)
    (Halloc : allocated nb) (Hpos : position_fits pos = true) :
  let nb' := run (CustomNotebook.insert pos child text) nb in
  Tk.label_text (CustomNotebook.tk_log nb') (CustomNotebook.next_object nb)
                None = Some text
  /\ (forall t, t <> CustomNotebook.next_object nb ->
                Tk.label_text (CustomNotebook.tk_log nb') t None
                = Tk.label_text (CustomNotebook.tk_log nb) t None)
  /\ (exists p, CustomNotebook.current_page nb' = Some p
                /\ CustomNotebookPage.tab p = CustomNotebook.next_object nb
                /\ CustomNotebookPage.content p = child).
Proof.
  cbv zeta. unfold run.
  destruct (insertion_index_of_fits pos (length (CustomNotebook.pages nb))
              Hpos) as [k Hk].
  rewrite (insert_allocated_eq pos child text Halloc Hk). cbv zeta.
  cbn [snd CustomNotebook.tk_log CustomNotebook.current_page].
  split; [|split].
  - rewrite label_text_app. cbn [Tk.label_text].
    rewrite Nat.eqb_refl, label_text_app, label_text_grid_calls.
    apply label_text_switch_calls.
  - intros t Ht. rewrite label_text_app. cbn [Tk.label_text].
    replace (CustomNotebook.next_object nb =? t) with false
      by (symmetry; apply Nat.eqb_neq; congruence).
    rewrite label_text_app, label_text_grid_calls.
    apply label_text_switch_calls.
  - eexists. repeat split.
Qed.

Lemma insert_shows_title_witness :
  Tk.label_text
    (CustomNotebook.tk_log
       (run (CustomNotebook.insert (PosInt 1) Sample.X "x.py")
            Sample.notebook_ABC))
    6 None = Some "x.py"%string.
Proof.
  assert (Hpos : position_fits (PosInt 1) = true) by (vm_compute; reflexivity).
  destruct (@insert_shows_title Sample.notebook_ABC (PosInt 1) Sample.X
              "x.py"%string sample_allocated Hpos) as (H & _).
  exact H.
Defined.

(** ** Selecting the current page, selecting another page: the statement *)

Section SelectCurrent.

Import CustomNotebook.



End SelectCurrent.




